(** * The adaptive-step integration engine of torchdiffeq/_impl

    A shallow embedding of [solvers.py] and [odeint.py].  Python exceptions
    become the [Raise] outcome of a result type, the solver object [self] is
    threaded explicitly through every method that may update it, and the
    [while] loop of [odeint_dense] runs on fuel.

    Time values are exact rationals: the embedded code only compares, negates
    and passes them on.  State tensors stay abstract behind [TensorOps]. *)

From Stdlib Require Import QArith Qabs Lqa Sorted.
From stdpp Require Import base list strings gmap.

(** ** Exceptions and results *)

(** The exceptions the embedded code can raise.  [OutOfInterpolationRange],
    [StepSizeTooSmall], [MaxStepsExceeded] and [EventAtStart] are the names
    the specification gives to failures of code that lives outside the two
    embedded files;
    [OtherError] stands for whatever else a scheme or a user function raises. *)
Inductive exn : Type :=
| IndexError
| AssertionError
| RuntimeError
| KeyError
| ValueError
| NotImplementedError
| OutOfInterpolationRange
| StepSizeTooSmall
| MaxStepsExceeded
| EventAtStart
| OtherError (code : nat).

(** The outcome of a call: a value, an exception, or a loop that used up the
    fuel of the model (no Python counterpart). *)
Inductive result (A : Type) : Type :=
| Ok (a : A)
| Raise (e : exn)
| OutOfFuel.
Arguments Ok {A} a.
Arguments Raise {A} e.
Arguments OutOfFuel {A}.

#[export] Instance exn_eq_dec : EqDecision exn.
Proof. solve_decision. Defined.

#[export] Instance result_ret : MRet result := λ A a, Ok a.
#[export] Instance result_bind : MBind result := λ A B f m,
  match m with
  | Ok a => f a
  | Raise e => Raise e
  | OutOfFuel => OutOfFuel
  end.
#[export] Instance result_fmap : FMap result := λ A B f m,
  match m with
  | Ok a => Ok (f a)
  | Raise e => Raise e
  | OutOfFuel => OutOfFuel
  end.

(** [assert cond] *)
Definition assert_ (cond : bool) : result unit :=
  if cond then Ok tt else Raise AssertionError.

(** [xs[i]] on a sequence, with Python's negative indices. *)
Definition getitem {A} (xs : list A) (i : Z) : result A :=
  let n := Z.of_nat (length xs) in
  let j := if (i <? 0)%Z then (n + i)%Z else i in
  if ((0 <=? j)%Z && (j <? n)%Z)%bool
  then match xs !! Z.to_nat j with Some x => Ok x | None => Raise IndexError end
  else Raise IndexError.

(** [[f(x) for x in xs]] with a callee that may raise. *)
Fixpoint for_each {A B} (f : A → result B) (xs : list A) : result (list B) :=
  match xs with
  | [] => Ok []
  | x :: xs' => y ← f x; ys ← for_each f xs'; Ok (y :: ys)
  end.

(** ** The numeric layer *)

Inductive dtype : Type := float32 | float64.

(** [x.to(dtype)], [x.to(device, dtype)], [x.to(other)]: a cast of the
    numeric layer.  On exact rationals the cast keeps the value. *)
Definition to_dtype (d : dtype) (x : Q) : Q := x.

(** What the engine needs from a state tensor: its shape, an uninitialised
    buffer row laid out like it ([torch.empty]) and the assignment of a value
    to such a row ([row.copy_(value)]): the row keeps its shape, a value of
    that shape is stored as it is, any other value is broadcast or raises. *)
Class TensorOps (Tensor : Type) : Type := {
  shape : Tensor → list nat;
  empty_like : Tensor → Tensor;
  copy_ : Tensor → Tensor → result Tensor;
  shape_empty_like : ∀ y, shape (empty_like y) = shape y;
  shape_copy_ : ∀ d s r, copy_ d s = Ok r → shape r = shape d;
  copy_same_shape : ∀ d s, shape s = shape d → copy_ d s = Ok s
}.

(** [torch.stack(xs, dim=0)] on items with a shape: the result is kept as the
    list of its rows along the new dimension. *)
Definition stack_by {A} (shp : A → list nat) (xs : list A) : result (list A) :=
  match xs with
  | [] => Raise RuntimeError
  | x :: rest =>
      if forallb (λ y, bool_decide (shp y = shp x)) rest then Ok xs
      else Raise RuntimeError
  end.

Section Solvers.
Context {Tensor : Type} `{TensorOps Tensor}.

(** A trajectory: the rows of a tensor of shape [(n, *state_shape)]. *)
Definition torch_stack (xs : list Tensor) : result (list Tensor) :=
  stack_by shape xs.

(** [torch.empty(n, *like.shape, dtype=like.dtype, device=like.device)] *)
Definition torch_empty (n : nat) (like : Tensor) : list Tensor :=
  replicate n (empty_like like).

(** [solution[i] = v] *)
Definition setitem (solution : list Tensor) (i : nat) (v : Tensor)
  : result (list Tensor) :=
  match solution !! i with
  | None => Raise IndexError
  | Some row => r ← copy_ row v; Ok (<[i:=r]> solution)
  end.

(** The shape of a stacked list of rows. *)
Definition rows_shape (rows : list Tensor) : list nat :=
  length rows :: match rows with [] => [] | r :: _ => shape r end.

(** ** solvers.py *)

(** [class AdaptiveStepsizeODESolver]: the attributes set by [__init__] and
    the two hooks a scheme overrides.  A hook receives the solver object and
    hands back the object it leaves behind. *)
Class AdaptiveStepsizeODESolver (Self : Type) : Type := {
  self_y0 : Self → Tensor;
  self_dtype : Self → dtype;
  _before_integrate : list Q → Self → result Self;
  _advance : Q → Self → result (Tensor * Self)
}.

(** [class AdaptiveStepsizeEventODESolver(AdaptiveStepsizeODESolver)] *)
Class AdaptiveStepsizeEventODESolver (EventFn Self : Type)
    `{AdaptiveStepsizeODESolver Self} : Type := {
  _advance_until_event : EventFn → Self → result ((Q * Tensor) * Self)
}.

Section Integrate.
Context {Self : Type} `{AdaptiveStepsizeODESolver Self}.

(** [for i in range(1, len(t)): solution[i] = self._advance(t[i])], entered
    with the times still to visit and the index of the first of them. *)
Fixpoint integrate_loop (ts : list Q) (i : nat) (solution : list Tensor)
    (self : Self) : result (list Tensor * Self) :=
  match ts with
  | [] => Ok (solution, self)
  | ti :: ts' =>
      '(y, self) ← _advance ti self;
      solution ← setitem solution i y;
      integrate_loop ts' (S i) solution self
  end.

(** The outputs of the successive [_advance] calls on the times [ts]. *)
Fixpoint advance_all (ts : list Q) (self : Self) : result (list Tensor * Self) :=
  match ts with
  | [] => Ok ([], self)
  | ti :: ts' =>
      '(y, self) ← _advance ti self;
      '(ys, self) ← advance_all ts' self;
      Ok (y :: ys, self)
  end.

(** [AdaptiveStepsizeODESolver.integrate] *)
Definition integrate (t : list Q) (self : Self) : result (list Tensor * Self) :=
  let solution := torch_empty (length t) (self_y0 self) in
  solution ← setitem solution 0 (self_y0 self);
  let t := to_dtype (self_dtype self) <$> t in
  self ← _before_integrate t self;
  integrate_loop (drop 1 t) 1 solution self.

(** [AdaptiveStepsizeEventODESolver.integrate_until_event] *)
Definition integrate_until_event {EventFn : Type}
    `{!AdaptiveStepsizeEventODESolver EventFn Self}
    (t0 : Q) (event_fn : EventFn) (self : Self)
  : result ((Q * list Tensor) * Self) :=
  let t0 := to_dtype (self_dtype self) t0 in
  self ← _before_integrate [t0] self;
  '((event_time, y1), self) ← _advance_until_event event_fn self;
  solution ← torch_stack [self_y0 self; y1];
  Ok ((event_time, solution), self).

End Integrate.
End Solvers.

(** ** odeint.py *)

(** The classes the registry [SOLVERS] points to (their bodies are other
    files of the package). *)
Inductive solver_class : Type :=
| Dopri8Solver
| Dopri5Solver
| Bosh3Solver
| Fehlberg2
| AdaptiveHeunSolver
| Euler
| Midpoint
| Heun3
| RK4
| AdamsBashforth
| AdamsBashforthMoulton
| ScipyWrapperODESolver.

(** [SOLVERS] *)
Definition SOLVERS : gmap string solver_class :=
  list_to_map
    [("dopri8", Dopri8Solver);
     ("dopri5", Dopri5Solver);
     ("bosh3", Bosh3Solver);
     ("fehlberg2", Fehlberg2);
     ("adaptive_heun", AdaptiveHeunSolver);
     ("euler", Euler);
     ("midpoint", Midpoint);
     ("heun3", Heun3);
     ("rk4", RK4);
     ("explicit_adams", AdamsBashforth);
     ("implicit_adams", AdamsBashforthMoulton);
     ("fixed_adams", AdamsBashforthMoulton);
     ("scipy_solver", ScipyWrapperODESolver)].

(** [SOLVERS[method]] *)
Definition SOLVERS_getitem (method : string) : result solver_class :=
  match SOLVERS !! method with
  | Some cls => Ok cls
  | None => Raise KeyError
  end.

(** [x.to(other)]: the cast to the dtype and device of [other]. *)
Definition to_like {A} (other : A) (x : Q) : Q := x.

(** [a < b] on times, as a boolean. *)
Definition Qlt_bool (a b : Q) : bool := negb (Qle_bool b a).

(** [torch.searchsorted(times, v, side="right")] on a one-dimensional
    [times] and a scalar [v]: bisection between [lo] and [hi]. *)
Fixpoint bisect_right (fuel : nat) (times : list Q) (v : Q) (lo hi : nat) : nat :=
  match fuel with
  | O => lo
  | S fuel' =>
      if (lo <? hi)%nat then
        let mid := (lo + (hi - lo) / 2)%nat in
        match times !! mid with
        | Some x =>
            if Qle_bool x v then bisect_right fuel' times v (S mid) hi
            else bisect_right fuel' times v lo mid
        | None => lo
        end
      else lo
  end.

Definition searchsorted_right (times : list Q) (v : Q) : nat :=
  bisect_right (length times) times v 0 (length times).

Section Odeint.
Context {Tensor : Type} `{TensorOps Tensor}.
Context {Func Tol Options EventFn : Type}.

(** The initial state handed to an entry point: a tensor or a tuple of
    tensors. *)
Inductive state_in : Type :=
| TensorIn (y : Tensor)
| TupleIn (ys : list Tensor).

(** [torch.is_tensor(y0)] *)
Definition is_tensor (y0 : state_in) : bool :=
  match y0 with
  | TensorIn _ => true
  | TupleIn _ => false
  end.

(** The tuple [_check_inputs] returns. *)
Record checked : Type := {
  c_shapes : option (list (list nat));
  c_func : Func;
  c_y0 : Tensor;
  c_t : list Q;
  c_rtol : Tol;
  c_atol : Tol;
  c_method : string;
  c_options : Options;
  c_event_fn : option EventFn;
  c_t_is_reversed : bool
}.

(** The helpers imported from [misc.py], which is not among the embedded
    files: they are parameters of the development. *)
Class Misc : Type := {
  _check_inputs :
    Func → state_in → list Q → Tol → Tol → option string → option Options →
    option EventFn → result checked;
  _flat_to_shape :
    list Tensor → list nat → list (list nat) → result (list (list Tensor))
}.

(** What [odeint] asks of the object [SOLVERS[method](...)] builds: the
    constructor and the two methods it calls, found by dynamic dispatch. *)
Class ODESolver (Solver : Type) : Type := {
  construct :
    solver_class → Func → Tensor → Tol → Tol → Options → result Solver;
  solver_integrate : list Q → Solver → result (list Tensor * Solver);
  solver_integrate_until_event :
    Q → EventFn → Solver → result ((Q * list Tensor) * Solver)
}.

(** The value bound to [solution] when [odeint] returns: the trajectory
    tensor, or the tuple [_flat_to_shape] makes of it. *)
Inductive solution_out : Type :=
| Flat (rows : list Tensor)
| Shaped (parts : list (list Tensor)).

(** What [odeint] returns: [solution] or [(event_t, solution)]. *)
Inductive odeint_out : Type :=
| Solution (solution : solution_out)
| EventSolution (event_t : Q) (solution : solution_out).

Section OdeintDef.
Context `{Misc} {Solver : Type} `{ODESolver Solver}.

(** [odeint] *)
Definition odeint (func : Func) (y0 : state_in) (t : list Q)
    (rtol atol : Tol) (method : option string) (options : option Options)
    (event_fn : option EventFn) : result odeint_out :=
  c ← _check_inputs func y0 t rtol atol method options event_fn;
  let t := c_t c in
  cls ← SOLVERS_getitem (c_method c);
  solver ← construct cls (c_func c) (c_y0 c) (c_rtol c) (c_atol c) (c_options c);
  '(event_t, solution) ←
    match c_event_fn c with
    | None =>
        '(solution, _) ← solver_integrate t solver;
        Ok (None, solution)
    | Some event_fn =>
        t_0 ← getitem t 0;
        '((event_t, solution), _) ←
          solver_integrate_until_event t_0 event_fn solver;
        let event_t := to_like t event_t in
        let event_t := if c_t_is_reversed c then (- event_t)%Q else event_t in
        Ok (Some event_t, solution)
    end;
  solution ←
    match c_shapes c with
    | Some shapes => Shaped <$> _flat_to_shape solution [length t] shapes
    | None => Ok (Flat solution)
    end;
  match event_t with
  | None => Ok (Solution solution)
  | Some event_t => Ok (EventSolution event_t solution)
  end.

End OdeintDef.

(** [c] with another time sequence in it. *)
Definition with_t (t : list Q) (c : checked) : checked :=
  {| c_t := t;
     c_shapes := c_shapes c; c_func := c_func c; c_y0 := c_y0 c;
     c_rtol := c_rtol c; c_atol := c_atol c; c_method := c_method c;
     c_options := c_options c; c_event_fn := c_event_fn c;
     c_t_is_reversed := c_t_is_reversed c |}.

(** The solver object of a class derived from
    [AdaptiveStepsizeEventODESolver]: the constructor is the class's own,
    [integrate] and [integrate_until_event] are the inherited methods of
    [solvers.py]. *)
Definition adaptive_ode_solver {Self : Type}
    `{!AdaptiveStepsizeODESolver (Tensor:=Tensor) Self}
    `{!AdaptiveStepsizeEventODESolver EventFn Self}
    (ctor : solver_class → Func → Tensor → Tol → Tol → Options → result Self)
  : ODESolver Self :=
  {| construct := ctor;
     solver_integrate := integrate;
     solver_integrate_until_event := integrate_until_event |}.

(** Modelled from the spec: the state record of the Runge-Kutta solvers
    ([rk_common.py] is not among the embedded files).  [odeint_dense] reads
    [.t0], [.t1] and [.interp_coeff]; the current state and the current step
    size are the remaining members the specification lists. *)
Record rk_state : Type := {
  rk_y1 : Tensor;
  rk_t0 : Q;
  rk_t1 : Q;
  rk_dt : Q;
  rk_interp_coeff : list Tensor
}.

(** What [odeint_dense] uses of [Dopri5Solver] beyond the base class: its
    constructor, the attribute [rk_state] (read and assigned) and
    [_adaptive_step]. *)
Class RKAdaptiveStepsizeODESolver (Self : Type)
    `{AdaptiveStepsizeODESolver Tensor Self} : Type := {
  Dopri5Solver_init : Func → Tensor → Tol → Tol → Options → result Self;
  self_rk_state : Self → rk_state;
  set_rk_state : rk_state → Self → Self;
  _adaptive_step : rk_state → Self → result (rk_state * Self);
  rk_state_set : ∀ rk self, self_rk_state (set_rk_state rk self) = rk
}.

(** The polynomial basis of a scheme, evaluated on [coefficients] at the
    position of [t] in [[t0, t1]], and the tolerance of the range check. *)
Class InterpBasis : Type := {
  basis_eval : list Tensor → Q → Q → Q → Tensor;
  interp_tol : Q
}.

Section Dense.
Context `{Misc} `{InterpBasis}.
Context {Self : Type} `{RKAdaptiveStepsizeODESolver Self}.

(** Modelled from the spec: [_interp_evaluate] of [interp.py], which is not
    among the embedded files.  It requires [t0 <= t <= t1] within the
    floating tolerance, errors with [OutOfInterpolationRange] otherwise, and
    evaluates the scheme's basis on the coefficients. *)
Definition _interp_evaluate (coefficients : list Tensor) (t0 t1 t : Q)
  : result Tensor :=
  if (Qle_bool (t0 - interp_tol) t && Qle_bool t (t1 + interp_tol))%bool
  then Ok (basis_eval coefficients t0 t1 t)
  else Raise OutOfInterpolationRange.

(** The variables of the integration loop of [odeint_dense]. *)
Record dense_state : Type := {
  ds_solver : Self;
  ds_t0 : Q;
  ds_times : list Q;
  ds_interp_coeffs : list (list Tensor);
  ds_solution : list Tensor
}.

(** The body of [while next_t > solver.rk_state.t1]. *)
Definition dense_step (st : dense_state) : result dense_state :=
  '(rk, solver) ← _adaptive_step (self_rk_state (ds_solver st)) (ds_solver st);
  let solver := set_rk_state rk solver in
  let t1 := rk_t1 (self_rk_state solver) in
  if negb (Qeq_bool t1 (ds_t0 st)) then
    coeff ← torch_stack (rk_interp_coeff (self_rk_state solver));
    Ok {| ds_solver := solver;
          ds_t0 := t1;
          ds_times := ds_times st ++ [t1];
          ds_interp_coeffs := ds_interp_coeffs st ++ [coeff];
          ds_solution := ds_solution st |}
  else
    Ok {| ds_solver := solver;
          ds_t0 := ds_t0 st;
          ds_times := ds_times st;
          ds_interp_coeffs := ds_interp_coeffs st;
          ds_solution := ds_solution st |}.

(** [while next_t > solver.rk_state.t1: ...] *)
Fixpoint dense_while (fuel : nat) (next_t : Q) (st : dense_state)
  : result dense_state :=
  match fuel with
  | O => OutOfFuel
  | S fuel' =>
      if Qlt_bool (rk_t1 (self_rk_state (ds_solver st))) next_t then
        st ← dense_step st;
        dense_while fuel' next_t st
      else Ok st
  end.

(** The loop variables after [n] rounds of the body, whatever the loop
    condition says. *)
Fixpoint dense_steps (n : nat) (st : dense_state) : result dense_state :=
  match n with
  | O => Ok st
  | S n' => st ← dense_step st; dense_steps n' st
  end.

(** [st] with [solution] rebound. *)
Definition with_solution (solution : list Tensor) (st : dense_state)
  : dense_state :=
  {| ds_solution := solution;
     ds_solver := ds_solver st;
     ds_t0 := ds_t0 st;
     ds_times := ds_times st;
     ds_interp_coeffs := ds_interp_coeffs st |}.

(** The loop states an integration run passes through: a state is followed
    by the one the loop body makes of it, or by itself with a row of the
    output assigned. *)
Inductive dense_reach (st0 : dense_state) : dense_state → Prop :=
| reach_start : dense_reach st0 st0
| reach_step st st' :
    dense_reach st0 st → dense_step st = Ok st' → dense_reach st0 st'
| reach_row st solution :
    dense_reach st0 st → dense_reach st0 (with_solution solution st).

(** The invariant of the archive under construction: the breakpoints are
    strictly increasing and end in the local [t0], which is the right
    endpoint of the solver state, and every breakpoint after the first has
    its coefficients. *)
Definition archive_inv (st : dense_state) : Prop :=
  StronglySorted Qlt (ds_times st) ∧
  last (ds_times st) = Some (ds_t0 st) ∧
  (ds_t0 st == rk_t1 (self_rk_state (ds_solver st)))%Q ∧
  length (ds_times st) = S (length (ds_interp_coeffs st)).

(** The part of the invariant that needs nothing of the solver: the
    breakpoints end in the local [t0], there is one more of them than
    entries of coefficients, and no two consecutive ones are equal. *)
Definition archive_shape (st : dense_state) : Prop :=
  last (ds_times st) = Some (ds_t0 st) ∧
  length (ds_times st) = S (length (ds_interp_coeffs st)) ∧
  ∀ i x y, ds_times st !! i = Some x → ds_times st !! S i = Some y →
           ¬ (x == y)%Q.

(** One round of [for i in range(1, len(t))]: advance to [next_t], then
    [solution[i] = _interp_evaluate(...)]. *)
Definition dense_output_row (fuel : nat) (next_t : Q) (i : nat)
    (st : dense_state) : result dense_state :=
  st ← dense_while fuel next_t st;
  let rk := self_rk_state (ds_solver st) in
  y ← _interp_evaluate (rk_interp_coeff rk) (rk_t0 rk) (rk_t1 rk) next_t;
  solution ← setitem (ds_solution st) i y;
  Ok (with_solution solution st).

(** [for i in range(1, len(t)): ...], entered with the times still to visit
    and the index of the first of them. *)
Fixpoint dense_for (fuel : nat) (ts : list Q) (i : nat) (st : dense_state)
  : result dense_state :=
  match ts with
  | [] => Ok st
  | next_t :: ts' =>
      st ← dense_output_row fuel next_t i st;
      dense_for fuel ts' (S i) st
  end.

(** What the closure [dense_output_fn] captures. *)
Record archive : Type := {
  a_times : list Q;
  a_interp_coeffs : list (list Tensor)
}.

(** An archive as the loop builds it: strictly increasing breakpoints, one
    entry of coefficients per interval between them, and entries that
    stacked into one tensor. *)
Definition archive_wf (a : archive) : Prop :=
  StronglySorted Qlt (a_times a) ∧
  length (a_times a) = S (length (a_interp_coeffs a)) ∧
  stack_by rows_shape (a_interp_coeffs a) = Ok (a_interp_coeffs a).

(** [dense_output_fn], the function [odeint_dense] returns. *)
Definition dense_output_fn (a : archive) (t_eval : Q) : result Tensor :=
  let times := a_times a in
  let interp_coeffs := a_interp_coeffs a in
  let idx := Z.of_nat (searchsorted_right times t_eval) in
  t0 ← getitem times (idx - 1);
  t1 ← getitem times idx;
  let shape_1 := match interp_coeffs with [] => O | c :: _ => length c end in
  coef ← for_each
           (λ i, c ← getitem interp_coeffs (idx - 1); getitem c (Z.of_nat i))
           (seq 0 shape_1);
  _interp_evaluate coef t0 t1 t_eval.

(** The part of [odeint_dense] before the loop: the two assertions, input
    checking, the solver and the loop variables. *)
Definition odeint_dense_init (func : Func) (y0 : state_in) (t0 t1 : Q)
    (rtol atol : Tol) (method : option string) (options : option Options)
  : result (list Q * dense_state) :=
  _ ← assert_ (is_tensor y0);
  let t := to_like t0 <$> [t0; t1] in
  c ← _check_inputs func y0 t rtol atol method options None;
  let t := c_t c in
  _ ← assert_ (bool_decide (c_method c = "dopri5"));
  solver ← Dopri5Solver_init (c_func c) (c_y0 c) (c_rtol c) (c_atol c) (c_options c);
  let solution := torch_empty (length t) (self_y0 solver) in
  solution ← setitem solution 0 (self_y0 solver);
  let t := to_dtype (self_dtype solver) <$> t in
  solver ← _before_integrate t solver;
  let t0 := rk_t0 (self_rk_state solver) in
  Ok (t, {| ds_solver := solver;
            ds_t0 := t0;
            ds_times := [t0];
            ds_interp_coeffs := [];
            ds_solution := solution |}).

(** The integration loop of [odeint_dense], with every loop variable it
    leaves behind. *)
Definition odeint_dense_loop (fuel : nat) (func : Func) (y0 : state_in)
    (t0 t1 : Q) (rtol atol : Tol) (method : option string)
    (options : option Options) : result dense_state :=
  '(t, st) ← odeint_dense_init func y0 t0 t1 rtol atol method options;
  dense_for fuel (drop 1 t) 1 st.

(** [odeint_dense] *)
Definition odeint_dense (fuel : nat) (func : Func) (y0 : state_in)
    (t0 t1 : Q) (rtol atol : Tol) (method : option string)
    (options : option Options) : result archive :=
  st ← odeint_dense_loop fuel func y0 t0 t1 rtol atol method options;
  times ← stack_by (λ _ : Q, []) (ds_times st);
  interp_coeffs ← stack_by rows_shape (ds_interp_coeffs st);
  Ok {| a_times := times; a_interp_coeffs := interp_coeffs |}.

End Dense.
End Odeint.

Arguments state_in : clear implicits.
Arguments rk_state : clear implicits.
Arguments archive : clear implicits.
Arguments solution_out : clear implicits.
Arguments odeint_out : clear implicits.
Arguments checked : clear implicits.

(** ** The adaptive solver behind the hooks, after the specification *)

Section SpecSolver.
Context {Tensor : Type} `{TensorOps Tensor} `{!InterpBasis (Tensor:=Tensor)}.

(** Modelled from the spec: the Step Function interface of a scheme (the
    concrete schemes, [dopri5.py] and [rk_common.py], are not among the
    embedded files).  [sch_step state t step_size] proposes the next state
    and yields the normalized error ratio of the trial and its interpolation
    coefficients; the remaining members are the step-size rule and the
    options [first_step] and [max_num_steps], the coefficients valid before
    the first step, and the iteration budget of the event bisection. *)
Record scheme : Type := {
  sch_step : Tensor → Q → Q → result (Tensor * Q * list Tensor);
  sch_next_step_size : Q → Q → Q;
  sch_first_step : Q;
  sch_max_num_steps : nat;
  sch_init_coeff : Tensor → list Tensor;
  sch_bisections : nat
}.

(** Modelled from the spec: the adaptive step controller, [_adaptive_step]
    of the absent [rk_common.py].  A trial step from the right endpoint is
    accepted iff its error ratio is at most 1; acceptance moves [t0, t1]
    forward and replaces the interpolation coefficients, rejection leaves the
    state unchanged except for the step size; a step size that does not
    advance the time signals [StepSizeTooSmall]. *)
Definition attempt_step (sch : scheme) (rk : rk_state Tensor)
  : result (rk_state Tensor) :=
  let t0 := rk_t1 rk in
  let dt := rk_dt rk in
  let t1 := (t0 + dt)%Q in
  if Qle_bool t1 t0 then Raise StepSizeTooSmall
  else
    '(y_new, ratio, coeffs) ← sch_step sch (rk_y1 rk) t0 dt;
    let dt_next := sch_next_step_size sch dt ratio in
    if Qle_bool ratio 1 then
      Ok {| rk_y1 := y_new; rk_t0 := t0; rk_t1 := t1; rk_dt := dt_next;
            rk_interp_coeff := coeffs |}
    else
      Ok {| rk_y1 := rk_y1 rk; rk_t0 := rk_t0 rk; rk_t1 := rk_t1 rk;
            rk_dt := dt_next; rk_interp_coeff := rk_interp_coeff rk |}.

(** The solver object: the attributes of the base class, the scheme chosen
    at construction and the mutable state of the loop. *)
Record spec_solver : Type := {
  ss_y0 : Tensor;
  ss_dtype : dtype;
  ss_scheme : scheme;
  ss_rk_state : rk_state Tensor
}.

Definition ss_set_rk_state (rk : rk_state Tensor) (self : spec_solver) : spec_solver :=
  {| ss_y0 := ss_y0 self; ss_dtype := ss_dtype self;
     ss_scheme := ss_scheme self; ss_rk_state := rk |}.

(** Modelled from the spec: [_before_integrate] of the absent
    [rk_common.py].  The state starts at the first requested time with an
    empty interval, [t0 = t1 = t[0]], and the first trial step size. *)
Definition spec_before_integrate (t : list Q) (self : spec_solver)
  : result spec_solver :=
  t_0 ← getitem t 0;
  Ok (ss_set_rk_state
        {| rk_y1 := ss_y0 self; rk_t0 := t_0; rk_t1 := t_0;
           rk_dt := sch_first_step (ss_scheme self);
           rk_interp_coeff := sch_init_coeff (ss_scheme self) (ss_y0 self) |}
        self).

(** Modelled from the spec: the integration loop of section 4.2 for one
    requested time, with [max_num_steps] as its guard rail. *)
Fixpoint spec_advance_loop (n : nat) (sch : scheme) (next_t : Q)
    (rk : rk_state Tensor) : result (rk_state Tensor) :=
  match n with
  | O => Raise MaxStepsExceeded
  | S n' =>
      if Qlt_bool (rk_t1 rk) next_t then
        rk ← attempt_step sch rk;
        spec_advance_loop n' sch next_t rk
      else Ok rk
  end.

(** Modelled from the spec: [_advance], which steps until the right
    endpoint reaches the requested time and interpolates there. *)
Definition spec_advance (next_t : Q) (self : spec_solver)
  : result (Tensor * spec_solver) :=
  let sch := ss_scheme self in
  rk ← spec_advance_loop (sch_max_num_steps sch) sch next_t (ss_rk_state self);
  y ← _interp_evaluate (rk_interp_coeff rk) (rk_t0 rk) (rk_t1 rk) next_t;
  Ok (y, ss_set_rk_state rk self).

Definition Qsign (x : Q) : Z := Z.sgn (Qnum x).

(** Modelled from the spec: the event locator of section 4.4.  The bracket
    [[lo, hi]] is bisected on the dense output for a fixed budget. *)
Fixpoint bisect_event (n : nat) (event_fn : Tensor → Q) (sign0 : Z)
    (coeffs : list Tensor) (t0 t1 lo hi : Q) : result (Q * Tensor) :=
  match n with
  | O => y ← _interp_evaluate coeffs t0 t1 hi; Ok (hi, y)
  | S n' =>
      let mid := Qred ((lo + hi) / 2) in
      y ← _interp_evaluate coeffs t0 t1 mid;
      if (Qsign (event_fn y) =? sign0)%Z
      then bisect_event n' event_fn sign0 coeffs t0 t1 mid hi
      else bisect_event n' event_fn sign0 coeffs t0 t1 lo mid
  end.

(** Modelled from the spec: one accepted step at a time until the sign of
    the event function differs from its sign at the start; the bracketing
    step is then bisected. *)
Fixpoint locate_loop (n : nat) (sch : scheme) (event_fn : Tensor → Q)
    (sign0 : Z) (rk : rk_state Tensor)
  : result ((Q * Tensor) * rk_state Tensor) :=
  match n with
  | O => Raise MaxStepsExceeded
  | S n' =>
      rk' ← attempt_step sch rk;
      if Qeq_bool (rk_t1 rk') (rk_t1 rk) then
        locate_loop n' sch event_fn sign0 rk'
      else if (Qsign (event_fn (rk_y1 rk')) =? sign0)%Z then
        locate_loop n' sch event_fn sign0 rk'
      else
        r ← bisect_event (sch_bisections sch) event_fn sign0
              (rk_interp_coeff rk') (rk_t0 rk') (rk_t1 rk')
              (rk_t0 rk') (rk_t1 rk');
        Ok (r, rk')
  end.

(** Modelled from the spec: [_advance_until_event]; an event function
    that is zero at the start signals [EventAtStart]. *)
Definition spec_advance_until_event (event_fn : Tensor → Q)
    (self : spec_solver) : result ((Q * Tensor) * spec_solver) :=
  let sch := ss_scheme self in
  let rk := ss_rk_state self in
  let sign0 := Qsign (event_fn (rk_y1 rk)) in
  if (sign0 =? 0)%Z then Raise EventAtStart
  else
    '(r, rk) ← locate_loop (sch_max_num_steps sch) sch event_fn sign0 rk;
    Ok (r, ss_set_rk_state rk self).

#[export] Instance spec_adaptive_solver : AdaptiveStepsizeODESolver spec_solver := {|
  self_y0 := ss_y0;
  self_dtype := ss_dtype;
  _before_integrate := spec_before_integrate;
  _advance := spec_advance
|}.

#[export] Instance spec_event_solver
  : AdaptiveStepsizeEventODESolver (Tensor → Q) spec_solver := {|
  _advance_until_event := spec_advance_until_event
|}.

Section SpecInstances.
Context {Func Tol Options : Type}.
Variable scheme_of : Func → Tol → Tol → Options → result scheme.

(** The constructor: [y0] and the scheme the arguments select. *)
Definition spec_init (func : Func) (y0 : Tensor) (rtol atol : Tol)
    (options : Options) : result spec_solver :=
  sch ← scheme_of func rtol atol options;
  Ok {| ss_y0 := y0; ss_dtype := float64; ss_scheme := sch;
        ss_rk_state := {| rk_y1 := y0; rk_t0 := 0; rk_t1 := 0; rk_dt := 0;
                          rk_interp_coeff := [] |} |}.

Definition spec_rk_solver
  : RKAdaptiveStepsizeODESolver (Func:=Func) (Tol:=Tol) (Options:=Options)
      spec_solver := {|
  Dopri5Solver_init := spec_init;
  self_rk_state := ss_rk_state;
  set_rk_state := ss_set_rk_state;
  _adaptive_step := λ rk self, rk' ← attempt_step (ss_scheme self) rk; Ok (rk', self);
  rk_state_set := λ rk self, eq_refl
|}.

(** The solver object [odeint] drives when the class is adaptive: the two
    methods are the ones of [solvers.py]. *)
Definition spec_ode_solver
  : ODESolver (Func:=Func) (Tol:=Tol) (Options:=Options)
      (EventFn:=Tensor → Q) spec_solver := {|
  construct := λ _ func y0 rtol atol options, spec_init func y0 rtol atol options;
  solver_integrate := integrate;
  solver_integrate_until_event := integrate_until_event
|}.

End SpecInstances.
End SpecSolver.

Arguments scheme : clear implicits.
Arguments spec_solver : clear implicits.

(** ** A concrete instance: vectors of rationals and the Heun-Euler pair

    The fixtures below run the development on concrete inputs.  They stand in
    for the parts of the package outside the embedded files: the numeric
    layer, one embedded Runge-Kutta pair, and the helpers of [misc.py] as
    their call sites and the docstring of [odeint] describe them. *)
Module Example.

Definition vec : Type := list Q.

Definition vec_copy (d s : vec) : result vec :=
  if decide (length s = length d) then Ok s
  else match s with
       | [x] => Ok (replicate (length d) x)
       | _ => Raise RuntimeError
       end.

Definition vec_shape_copy (d s r : vec) :
  vec_copy d s = Ok r → [length r] = [length d].
Proof.
  unfold vec_copy. destruct (decide (length s = length d)) as [e|].
  - intros [= <-]. by rewrite e.
  - destruct s as [|x [|]]; intros [= <-]. by rewrite length_replicate.
Defined.

Definition vec_copy_same_shape (d s : vec) :
  [length s] = [length d] → vec_copy d s = Ok s.
Proof.
  intros [= e]. unfold vec_copy. by rewrite decide_True.
Defined.

#[export] Instance vec_ops : TensorOps vec := {|
  shape v := [length v];
  empty_like v := replicate (length v) 0%Q;
  copy_ := vec_copy;
  shape_empty_like := λ y, f_equal (λ n, [n]) (length_replicate (length y) 0%Q);
  shape_copy_ := vec_shape_copy;
  copy_same_shape := vec_copy_same_shape
|}.

Definition vadd (a b : vec) : vec := zip_with (λ x y, Qred (x + y)) a b.
Definition vsub (a b : vec) : vec := zip_with (λ x y, Qred (x - y)) a b.
Definition vscale (c : Q) (a : vec) : vec := (λ x, Qred (c * x)) <$> a.
Definition Qmax (a b : Q) : Q := if Qle_bool a b then b else a.

(** Linear interpolation between the two coefficient rows (the state at
    [t0] and the state at [t1]); the range check is exact. *)
#[export] Instance linear_basis : InterpBasis (Tensor:=vec) := {|
  basis_eval coefficients t0 t1 t :=
    match coefficients with
    | [a; b] => vadd a (vscale ((t - t0) / (t1 - t0)) (vsub b a))
    | _ => []
    end;
  interp_tol := 0
|}.

Definition func_t : Type := Q → vec → vec.

Record options_t : Type := {
  first_step : Q;
  max_num_steps : nat
}.

(** The Heun-Euler pair: the second-order result is the proposal, its
    distance to the Euler result the error estimate, measured in the
    maximum norm against [atol + rtol * max(|y_old|, |y_new|)]. *)
Definition heun_euler_step (func : func_t) (rtol atol : Q) (y : vec)
    (t dt : Q) : result (vec * Q * list vec) :=
  let k1 := func t y in
  let k2 := func (t + dt)%Q (vadd y (vscale dt k1)) in
  let y_new := vadd y (vscale (dt / 2) (vadd k1 k2)) in
  let err := vscale (dt / 2) (vsub k2 k1) in
  let ratios :=
    zip_with (λ e yy, (Qabs e / (atol + rtol * Qmax (Qabs yy.1) (Qabs yy.2)))%Q)
      err (zip y y_new) in
  Ok (y_new, Qred (foldr Qmax 0%Q ratios), [y; y_new]).

Definition heun_euler_scheme (func : func_t) (rtol atol : Q)
    (options : options_t) : scheme vec :=
  {| sch_step := heun_euler_step func rtol atol;
     sch_next_step_size := λ dt ratio,
       if Qle_bool ratio (1 # 4) then Qred (2 * dt)
       else if Qle_bool ratio 1 then dt else Qred (dt / 2);
     sch_first_step := first_step options;
     sch_max_num_steps := max_num_steps options;
     sch_init_coeff := λ y, [y; y];
     sch_bisections := 4 |}.

Definition heun_euler (func : func_t) (rtol atol : Q) (options : options_t)
  : result (scheme vec) :=
  Ok (heun_euler_scheme func rtol atol options).

Definition default_options : options_t :=
  {| first_step := 1 # 4; max_num_steps := 64 |}.

(** The right-hand side seen in negated time. *)
Definition reversed (func : func_t) : func_t :=
  λ s y, vscale (-1) (func (- s)%Q y).

Fixpoint increasing (t : list Q) : bool :=
  match t with
  | a :: (b :: _) as rest => Qlt_bool a b && increasing rest
  | _ => true
  end.

(** [_check_inputs] after the docstring of [odeint]: a tuple state is
    flattened and its shapes remembered, the method defaults to dopri5 and
    must be a key of [SOLVERS], and a decreasing time sequence is
    normalized to an increasing one by negating time. *)
Definition check_inputs (func : func_t) (y0 : state_in vec) (t : list Q)
    (rtol atol : Q) (method : option string) (options : option options_t)
    (event_fn : option (vec → Q))
  : result (checked vec func_t Q options_t (vec → Q)) :=
  let '(shapes, y0) :=
    match y0 with
    | TensorIn y => (None, y)
    | TupleIn ys => (Some ((λ y, [length y]) <$> ys), concat ys)
    end in
  let method := default "dopri5" method in
  if negb (bool_decide (is_Some (SOLVERS !! method))) then Raise ValueError
  else
    let t_is_reversed :=
      match t with
      | a :: b :: _ => Qlt_bool b a
      | _ => false
      end in
    let t' := if t_is_reversed then Qopp <$> t else t in
    let func' := if t_is_reversed then reversed func else func in
    if negb (increasing t') then Raise AssertionError
    else
      Ok {| c_shapes := shapes; c_func := func'; c_y0 := y0; c_t := t';
            c_rtol := rtol; c_atol := atol; c_method := method;
            c_options := default default_options options;
            c_event_fn := event_fn; c_t_is_reversed := t_is_reversed |}.

Definition numel (shp : list nat) : nat := foldr Nat.mul 1%nat shp.

(** [_flat_to_shape(tensor, length, shapes)] after its call site: the
    columns of each component of the state are cut out of every row and
    viewed with [length] as leading dimensions, which fails unless the
    element counts agree. *)
Fixpoint flat_to_shape_from (total : nat) (rows : list vec)
    (length_ : list nat) (shapes : list (list nat))
  : result (list (list vec)) :=
  match shapes with
  | [] => Ok []
  | shp :: shapes' =>
      let n := numel shp in
      if (length rows * n =? numel length_ * n)%nat then
        rest ← flat_to_shape_from (total + n) rows length_ shapes';
        Ok (((λ row, take n (drop total row)) <$> rows) :: rest)
      else Raise RuntimeError
  end.

Definition flat_to_shape := flat_to_shape_from 0.

#[export] Instance misc : Misc (Tensor:=vec) := {|
  _check_inputs := check_inputs;
  _flat_to_shape := flat_to_shape
|}.

#[export] Instance rk_solver
  : RKAdaptiveStepsizeODESolver (spec_solver vec) :=
  spec_rk_solver heun_euler.

#[export] Instance ode_solver : ODESolver (spec_solver vec) :=
  spec_ode_solver heun_euler.

(** [dy/dt = -y] *)
Definition decay : func_t := λ _ y, vscale (-1) y.

(** [dy/dt = y] *)
Definition growth : func_t := λ _ y, y.

(** [dy/dt = 0] *)
Definition still : func_t := λ _ y, vscale 0 y.

(** The event [y - 1/2]. *)
Definition below_half : vec → Q := λ y, (hd 0 y - (1 # 2))%Q.

(** Options with a first trial step too large to be accepted. *)
Definition big_first_step : options_t :=
  {| first_step := 2; max_num_steps := 8 |}.

(** The archive [odeint_dense] builds for [dy/dt = -y], [y0 = 1] on
    [[0, 1]] with tolerances [1/10] and [big_first_step]: two accepted
    steps, the second one ending on the requested final time. *)
Definition decay_archive : archive vec :=
  {| a_times := [0%Q; 1 # 2; 4 # 4];
     a_interp_coeffs := [[[1%Q]; [5 # 8]]; [[5 # 8]; [25 # 64]]] |}.

(** Options with a first trial step that spans [[0, 1]]. *)
Definition unit_first_step : options_t :=
  {| first_step := 1; max_num_steps := 8 |}.

(** The archive [odeint_dense] builds for [dy/dt = 0], [y0 = 1] on [[0, 1]]
    with [unit_first_step]: one accepted step, which ends on the requested
    final time. *)
Definition still_archive : archive vec :=
  {| a_times := [0%Q; 1%Q];
     a_interp_coeffs := [[[1%Q]; [1%Q]]] |}.

(** The solver object [odeint] builds for [func], [y0 = 1] and tolerances
    [1/10], in the state [rk]. *)
Definition solver_at (func : func_t) (options : options_t)
    (rk : rk_state vec) : spec_solver vec :=
  {| ss_y0 := [1%Q]; ss_dtype := float64;
     ss_scheme := heun_euler_scheme func (1 # 10) (1 # 10) options;
     ss_rk_state := rk |}.

Definition decay_solver_at : options_t → rk_state vec → spec_solver vec :=
  solver_at decay.

(** The state a freshly constructed solver holds. *)
Definition rk_unset : rk_state vec :=
  {| rk_y1 := [1%Q]; rk_t0 := 0; rk_t1 := 0; rk_dt := 0;
     rk_interp_coeff := [] |}.

(** The state after [_before_integrate] at time 0. *)
Definition rk_start (dt : Q) : rk_state vec :=
  {| rk_y1 := [1%Q]; rk_t0 := 0; rk_t1 := 0; rk_dt := dt;
     rk_interp_coeff := [[1%Q]; [1%Q]] |}.

Definition decay_solver : spec_solver vec :=
  decay_solver_at default_options rk_unset.

(** The state in which the event [y = 1/2] is located. *)
Definition rk_at_event : rk_state vec :=
  {| rk_y1 := [125 # 256]; rk_t0 := 1 # 4; rk_t1 := 6 # 8; rk_dt := 1 # 2;
     rk_interp_coeff := [[25 # 32]; [125 # 256]] |}.

(** The state after the requested time 1. *)
Definition rk_after_one : rk_state vec :=
  {| rk_y1 := [625 # 2048]; rk_t0 := 6 # 8; rk_t1 := 20 # 16;
     rk_dt := 1 # 2;
     rk_interp_coeff := [[125 # 256]; [625 # 2048]] |}.

(** The state after the requested times 1 and 2. *)
Definition rk_after_two : rk_state vec :=
  {| rk_y1 := [15625 # 131072]; rk_t0 := 56 # 32; rk_t1 := 144 # 64;
     rk_dt := 1;
     rk_interp_coeff := [[3125 # 16384]; [15625 # 131072]] |}.

(** The loop variables of [odeint_dense] on [[0, 1]] with
    [big_first_step]: on entry to the loop and after four rounds. *)
Definition dense_start : dense_state :=
  {| ds_solver := decay_solver_at big_first_step (rk_start 2);
     ds_t0 := 0; ds_times := [0%Q]; ds_interp_coeffs := [];
     ds_solution := [[1%Q]; [0%Q]] |}.

Definition dense_after_four : dense_state :=
  {| ds_solver :=
       decay_solver_at big_first_step
         {| rk_y1 := [25 # 64]; rk_t0 := 1 # 2; rk_t1 := 4 # 4;
            rk_dt := 1 # 2; rk_interp_coeff := [[5 # 8]; [25 # 64]] |};
     ds_t0 := 4 # 4; ds_times := a_times decay_archive;
     ds_interp_coeffs := a_interp_coeffs decay_archive;
     ds_solution := [[1%Q]; [0%Q]] |}.

(** The tuple [_check_inputs] returns for [dy/dt = -y] in increasing
    time, tolerances [1/10], the default method and the default options. *)
Definition decay_checked (shapes : option (list (list nat))) (y0 : vec)
    (t : list Q) (event_fn : option (vec → Q))
  : checked vec func_t Q options_t (vec → Q) :=
  {| c_shapes := shapes; c_func := decay; c_y0 := y0; c_t := t;
     c_rtol := 1 # 10; c_atol := 1 # 10; c_method := "dopri5";
     c_options := default_options; c_event_fn := event_fn;
     c_t_is_reversed := false |}.

End Example.

(** * Properties *)

(** ** Results *)

Lemma bind_Ok {A B} (m : result A) (f : A → result B) (b : B) :
  m ≫= f = Ok b ↔ ∃ a, m = Ok a ∧ f a = Ok b.
Proof.
  destruct m as [a| |]; simpl; split; try done.
  - eauto.
  - by intros (? & [= <-] & ?).
  - by intros (? & ? & ?).
  - by intros (? & ? & ?).
Qed.

Lemma fmap_Ok {A B} (m : result A) (f : A → B) (b : B) :
  f <$> m = Ok b ↔ ∃ a, m = Ok a ∧ b = f a.
Proof.
  destruct m as [a| |]; simpl; split; try done.
  - intros [= <-]. eauto.
  - by intros (? & [= <-] & ->).
  - by intros (? & ? & ?).
  - by intros (? & ? & ?).
Qed.

(** Splits a hypothesis [m ≫= f = Ok b] into its two halves. *)
Ltac inv_bind H :=
  let a := fresh "a" in
  let Ha := fresh "Ha" in
  apply bind_Ok in H; destruct H as (a & Ha & H); simpl in H.

Lemma getitem_nat {A} (xs : list A) (i : nat) (x : A) :
  xs !! i = Some x → getitem xs (Z.of_nat i) = Ok x.
Proof.
  intros Hx. pose proof (lookup_lt_Some _ _ _ Hx) as Hlt. unfold getitem.
  replace (Z.of_nat i <? 0)%Z with false by lia.
  replace ((0 <=? Z.of_nat i)%Z && (Z.of_nat i <? Z.of_nat (length xs))%Z)%bool
    with true by lia.
  by rewrite Nat2Z.id, Hx.
Qed.


Lemma getitem_last {A} (xs : list A) (x : A) :
  getitem (xs ++ [x]) (-1) = Ok x.
Proof.
  unfold getitem. rewrite length_app. simpl length.
  change (-1 <? 0)%Z with true. cbv iota.
  rewrite (proj2 (andb_true_iff _ _)).
  - replace (Z.to_nat (Z.of_nat (length xs + 1) + -1)) with (length xs) by lia.
    by rewrite list_lookup_middle.
  - split; [apply Z.leb_le | apply Z.ltb_lt]; lia.
Qed.

(** ** solvers.py *)

Section SolversFacts.
Context {Tensor : Type} `{TensorOps Tensor}.
Context {Self : Type} `{!AdaptiveStepsizeODESolver (Tensor:=Tensor) Self}.

Lemma copy_empty_like (y : Tensor) : copy_ (empty_like y) y = Ok y.
Proof. apply copy_same_shape. symmetry. apply shape_empty_like. Qed.

Lemma setitem_middle (pre rest : list Tensor) (row v : Tensor) :
  shape v = shape row →
  setitem (pre ++ row :: rest) (length pre) v = Ok (pre ++ v :: rest).
Proof.
  intros Hs. unfold setitem. rewrite list_lookup_middle by done.
  rewrite (copy_same_shape _ _ Hs). simpl.
  by rewrite insert_app_r_alt, Nat.sub_diag by lia.
Qed.

Lemma setitem_inv (sol sol' : list Tensor) (i : nat) (v : Tensor) :
  setitem sol i v = Ok sol' →
  ∃ row r, sol !! i = Some row ∧ shape r = shape row ∧ sol' = <[i:=r]> sol.
Proof.
  unfold setitem. destruct (sol !! i) as [row|] eqn:Hrow; [|done].
  intros Hb. inv_bind Hb. injection Hb as <-.
  exists row, a. eauto using shape_copy_.
Qed.

Lemma advance_all_length (ts : list Q) (self self' : Self) (ys : list Tensor) :
  advance_all ts self = Ok (ys, self') → length ys = length ts.
Proof.
  revert self ys. induction ts as [|ti ts IH]; intros self ys; simpl.
  - by intros [= <- _].
  - intros Hb. inv_bind Hb. destruct a as [y s1]. inv_bind Hb.
    destruct a as [ys' s2]. injection Hb as <- <-. simpl. f_equal. eauto.
Qed.

(** The loop fills the rows after [pre] with the outputs of [_advance]. *)
Lemma integrate_loop_run (like : Tensor) (ts : list Q) :
  ∀ (pre rest ys : list Tensor) (self self' : Self),
    advance_all ts self = Ok (ys, self') →
    Forall (λ y, shape y = shape like) ys →
    Forall (λ r, shape r = shape like) rest →
    length rest = length ts →
    integrate_loop ts (length pre) (pre ++ rest) self = Ok (pre ++ ys, self').
Proof.
  induction ts as [|ti ts IH]; intros pre rest ys self self' Hadv Hys Hrest Hlen.
  - simpl in *. injection Hadv as <- <-. by destruct rest.
  - simpl in Hadv. inv_bind Hadv. destruct a as [y s1]. inv_bind Hadv.
    destruct a as [ys' s2]. injection Hadv as <- <-.
    destruct rest as [|row rest]; [done|].
    apply Forall_cons in Hys as [Hy Hys]. apply Forall_cons in Hrest as [Hrow Hrest].
    simpl. rewrite Ha. simpl.
    rewrite setitem_middle by congruence. simpl.
    specialize (IH (pre ++ [y]) rest ys' s1 s2 Ha0 Hys Hrest).
    rewrite length_app, Nat.add_1_r, <- !app_assoc in IH. simpl in IH.
    apply IH. simpl in Hlen. lia.
Qed.

(** Whatever the hooks do, the loop keeps the number of rows, their shapes
    and the rows before the index it starts from. *)
Lemma integrate_loop_inv (like : Tensor) (ts : list Q) :
  ∀ (i : nat) (sol sol' : list Tensor) (self self' : Self),
    integrate_loop ts i sol self = Ok (sol', self') →
    Forall (λ r, shape r = shape like) sol →
    length sol' = length sol ∧
    Forall (λ r, shape r = shape like) sol' ∧
    ∀ j, (j < i)%nat → sol' !! j = sol !! j.
Proof.
  induction ts as [|ti ts IH]; intros i sol sol' self self' Hrun Hsol; simpl in Hrun.
  - by injection Hrun as <- <-.
  - inv_bind Hrun. destruct a as [y s1]. inv_bind Hrun.
    apply setitem_inv in Ha0 as (row & r & Hrow & Hr & ->).
    apply IH in Hrun as (Hlen & Hshape & Hpre).
    + rewrite length_insert in Hlen. split_and!; [done..|].
      intros j Hj. rewrite Hpre by lia. apply list_lookup_insert_ne. lia.
    + apply Forall_insert; [done|].
      rewrite Hr. by apply (Forall_lookup_1 _ _ _ _ Hsol Hrow).
Qed.

(** Every trajectory [integrate] returns has one row per requested time,
    each of the shape of [y0], and starts with [y0] as it was on entry. *)
Lemma integrate_inv (t : list Q) (self self' : Self) (sol : list Tensor) :
  integrate t self = Ok (sol, self') →
  length sol = length t ∧
  Forall (λ r, shape r = shape (self_y0 self)) sol ∧
  sol !! 0%nat = Some (self_y0 self).
Proof.
  unfold integrate. intros Hrun. inv_bind Hrun. inv_bind Hrun.
  destruct t as [|t0 t]; [done|]. simpl in Ha.
  unfold setitem in Ha. simpl in Ha.
  rewrite copy_empty_like in Ha. injection Ha as <-.
  apply (integrate_loop_inv (self_y0 self)) in Hrun as (Hlen & Hshape & Hpre).
  - split_and!; [|done|].
    + rewrite Hlen. simpl. by rewrite length_replicate.
    + by rewrite Hpre by lia.
  - constructor; [done|]. apply Forall_replicate, shape_empty_like.
Qed.

(** C2: for a non-empty time sequence on which the hooks return,
    [integrate] returns one row per requested time, each of the shape of the
    state: the first is [y0], assigned before any hook runs, the others are
    the outputs of the successive [_advance] calls. *)
Theorem integrate_one_row_per_time
    (t : list Q) (self s1 s2 : Self) (ys : list Tensor) :
  t ≠ [] →
  _before_integrate (to_dtype (self_dtype self) <$> t) self = Ok s1 →
  advance_all (drop 1 (to_dtype (self_dtype self) <$> t)) s1 = Ok (ys, s2) →
  Forall (λ y, shape y = shape (self_y0 self)) ys →
  ∃ solution,
    integrate t self = Ok (solution, s2) ∧
    solution = self_y0 self :: ys ∧
    length solution = length t ∧
    Forall (λ r, shape r = shape (self_y0 self)) solution ∧
    solution !! 0%nat = Some (self_y0 self).
Proof.
  intros Ht Hbefore Hadv Hys.
  assert (integrate t self = Ok (self_y0 self :: ys, s2)) as Hrun.
  { unfold integrate. destruct t as [|t0 t]; [done|]. simpl torch_empty.
    unfold setitem. simpl.
    rewrite copy_empty_like. simpl.
    simpl in Hbefore. rewrite Hbefore. simpl.
    apply (integrate_loop_run (self_y0 self) _ [self_y0 self]); try done.
    - apply Forall_replicate, shape_empty_like.
    - rewrite length_replicate. simpl. by rewrite drop_0, length_fmap. }
  exists (self_y0 self :: ys). split; [done|]. split; [done|].
  by apply integrate_inv in Hrun.
Qed.

Lemma integrate_empty (self : Self) : integrate [] self = Raise IndexError.
Proof. done. Qed.

Context {EventFn : Type} `{!AdaptiveStepsizeEventODESolver EventFn Self}.

(** Every result of [integrate_until_event] is the event time the hook
    located, and the stack of [self.y0] and the state the hook returned. *)
Lemma integrate_until_event_inv (t0 : Q) (event_fn : EventFn)
    (self s2 : Self) (event_time : Q) (solution : list Tensor) :
  integrate_until_event t0 event_fn self = Ok ((event_time, solution), s2) →
  ∃ s1 y1,
    _before_integrate [to_dtype (self_dtype self) t0] self = Ok s1 ∧
    _advance_until_event event_fn s1 = Ok ((event_time, y1), s2) ∧
    solution = [self_y0 s2; y1].
Proof.
  unfold integrate_until_event. intros Hrun. inv_bind Hrun.
  inv_bind Hrun. destruct a0 as [[et y1] s]. inv_bind Hrun.
  injection Hrun as <- <- <-. exists a, y1. split_and!; [done..|].
  unfold torch_stack, stack_by in Ha1. simpl in Ha1.
  destruct (_ && _); by simplify_eq.
Qed.

(** C1: when the hooks return, leave [self.y0] as it was and locate a state
    of the shape of [y0], [integrate_until_event] returns the located event
    time and a trajectory of exactly two rows, [y0] and the state at the
    event. *)
Theorem integrate_until_event_two_rows (t0 : Q) (event_fn : EventFn)
    (self s1 s2 : Self) (event_time : Q) (y1 : Tensor) :
  _before_integrate [to_dtype (self_dtype self) t0] self = Ok s1 →
  _advance_until_event event_fn s1 = Ok ((event_time, y1), s2) →
  self_y0 s2 = self_y0 self →
  shape y1 = shape (self_y0 self) →
  ∃ solution,
    integrate_until_event t0 event_fn self = Ok ((event_time, solution), s2) ∧
    length solution = 2%nat ∧
    solution !! 0%nat = Some (self_y0 self) ∧
    solution !! 1%nat = Some y1.
Proof.
  intros Hbefore Hadv Hframe Hshape. exists [self_y0 self; y1].
  split; [|done]. unfold integrate_until_event.
  rewrite Hbefore. simpl. rewrite Hadv. simpl.
  unfold torch_stack, stack_by. simpl. rewrite Hframe.
  by rewrite bool_decide_eq_true_2.
Qed.

End SolversFacts.

(** ** odeint.py: the fixed-grid and event entry point *)

Section OdeintFacts.
Context {Tensor : Type} `{TensorOps Tensor}.
Context {Func Tol Options EventFn : Type}.
Context `{!Misc (Tensor:=Tensor) (Func:=Func) (Tol:=Tol) (Options:=Options)
             (EventFn:=EventFn)}.
Context {Solver : Type}
  `{!ODESolver (Tensor:=Tensor) (Func:=Func) (Tol:=Tol) (Options:=Options)
       (EventFn:=EventFn) Solver}.

(** What [odeint] does once input checking and the solver have succeeded
    and an event function is present. *)
Lemma odeint_event_run (func : Func) (y0 : state_in Tensor) (t : list Q)
    (rtol atol : Tol) (method : option string) (options : option Options)
    (event_fn : option EventFn)
    (c : checked Tensor Func Tol Options EventFn) (cls : solver_class)
    (solver : Solver) (e : EventFn) :
  _check_inputs func y0 t rtol atol method options event_fn = Ok c →
  c_event_fn c = Some e →
  SOLVERS_getitem (c_method c) = Ok cls →
  construct cls (c_func c) (c_y0 c) (c_rtol c) (c_atol c) (c_options c)
    = Ok solver →
  odeint func y0 t rtol atol method options event_fn =
    (t_0 ← getitem (c_t c) 0;
     '((event_t, solution), _) ← solver_integrate_until_event t_0 e solver;
     solution ←
       match c_shapes c with
       | Some shapes =>
           Shaped <$> _flat_to_shape solution [length (c_t c)] shapes
       | None => Ok (Flat solution)
       end;
     Ok (EventSolution
           (if c_t_is_reversed c then (- event_t)%Q else event_t) solution)).
Proof.
  intros Hc He Hcls Hsolver. unfold odeint.
  rewrite Hc. simpl. rewrite Hcls. simpl. rewrite Hsolver. simpl.
  rewrite He. destruct (getitem (c_t c) 0) as [t_0| |]; [simpl|done..].
  destruct (solver_integrate_until_event t_0 e solver)
    as [[[event_t solution] solver']| |]; [simpl|done..].
  unfold to_like.
  destruct (c_shapes c) as [shapes|]; [|done]. simpl.
  by destruct (_flat_to_shape solution [length (c_t c)] shapes).
Qed.

(** C7: once the solver has located the event at [event_t] in the
    normalized time frame, every result of [odeint] reports [- event_t] when
    the request had decreasing time and [event_t] itself otherwise; for a
    tensor state it is returned together with the two-row trajectory. *)
Theorem odeint_event_time_negated_if_reversed
    (func : Func) (y0 : state_in Tensor) (t : list Q)
    (rtol atol : Tol) (method : option string) (options : option Options)
    (event_fn : option EventFn)
    (c : checked Tensor Func Tol Options EventFn) (cls : solver_class)
    (solver solver' : Solver) (e : EventFn) (t_0 event_t : Q)
    (solution : list Tensor) :
  _check_inputs func y0 t rtol atol method options event_fn = Ok c →
  c_event_fn c = Some e →
  SOLVERS_getitem (c_method c) = Ok cls →
  construct cls (c_func c) (c_y0 c) (c_rtol c) (c_atol c) (c_options c)
    = Ok solver →
  getitem (c_t c) 0 = Ok t_0 →
  solver_integrate_until_event t_0 e solver
    = Ok ((event_t, solution), solver') →
  let reported := if c_t_is_reversed c then (- event_t)%Q else event_t in
  (c_shapes c = None →
   odeint func y0 t rtol atol method options event_fn
     = Ok (EventSolution reported (Flat solution))) ∧
  (∀ out, odeint func y0 t rtol atol method options event_fn = Ok out →
          ∃ sol, out = EventSolution reported sol).
Proof.
  intros Hc He Hcls Hsolver Ht0 Hrun reported.
  rewrite (odeint_event_run _ _ _ _ _ _ _ _ c cls solver e) by done.
  rewrite Ht0. simpl. rewrite Hrun. simpl. split.
  - by intros ->.
  - intros out Hout. inv_bind Hout. injection Hout as <-. by exists a.
Qed.

End OdeintFacts.

(** ** odeint.py: the dense entry point *)

Section DenseFacts.
Context {Tensor : Type} `{TensorOps Tensor}.
Context {Func Tol Options EventFn : Type}.
Context `{!Misc (Tensor:=Tensor) (Func:=Func) (Tol:=Tol) (Options:=Options)
             (EventFn:=EventFn)}.
Context `{!InterpBasis (Tensor:=Tensor)}.
Context {Self : Type} `{!AdaptiveStepsizeODESolver (Tensor:=Tensor) Self}.
Context `{!RKAdaptiveStepsizeODESolver (Func:=Func) (Tol:=Tol)
             (Options:=Options) Self}.

(** C10: a state that is not a single tensor fails the first assertion of
    [odeint_dense], whatever the helpers and the solver would do and however
    much fuel the loop is given. *)
Theorem odeint_dense_requires_tensor (fuel : nat) (func : Func)
    (ys : list Tensor) (t0 t1 : Q) (rtol atol : Tol)
    (method : option string) (options : option Options) :
  odeint_dense (EventFn:=EventFn) fuel func (TupleIn ys) t0 t1 rtol atol
    method options = Raise AssertionError
  ∧ odeint_dense_init (EventFn:=EventFn) func (TupleIn ys) t0 t1 rtol atol
      method options = Raise AssertionError.
Proof. done. Qed.

(** C9: when input checking resolves the method to a name other than
    dopri5, [odeint_dense] fails its second assertion: no solver is built
    and no step is taken, whatever fuel the loop is given. *)
Theorem odeint_dense_only_dopri5 (fuel : nat) (func : Func) (y : Tensor)
    (t0 t1 : Q) (rtol atol : Tol) (method : option string)
    (options : option Options)
    (c : checked Tensor Func Tol Options EventFn) :
  _check_inputs func (TensorIn y) (to_like t0 <$> [t0; t1]) rtol atol method
    options None = Ok c →
  c_method c ≠ "dopri5" →
  odeint_dense fuel func (TensorIn y) t0 t1 rtol atol method options
    = Raise AssertionError
  ∧ odeint_dense_init func (TensorIn y) t0 t1 rtol atol method options
      = Raise AssertionError.
Proof.
  intros Hc Hm.
  assert (odeint_dense_init func (TensorIn y) t0 t1 rtol atol method options
          = Raise AssertionError) as Hinit.
  { unfold odeint_dense_init. simpl in *. rewrite Hc. simpl.
    by rewrite bool_decide_eq_false_2. }
  split; [|done]. unfold odeint_dense, odeint_dense_loop. by rewrite Hinit.
Qed.

Lemma Qlt_bool_true (a b : Q) : Qlt_bool a b = true ↔ (a < b)%Q.
Proof.
  unfold Qlt_bool. rewrite negb_true_iff, <- not_true_iff_false, Qle_bool_iff.
  split; [apply Qnot_le_lt | apply Qlt_not_le].
Qed.

Lemma Qlt_bool_false (a b : Q) : Qlt_bool a b = false ↔ (b <= a)%Q.
Proof.
  unfold Qlt_bool. by rewrite negb_false_iff, Qle_bool_iff.
Qed.

(** The [while] loop returns the first state of the run whose right
    endpoint has reached [next_t], on any fuel above the number of rounds. *)
Lemma dense_while_steps (next_t : Q) (n : nat) :
  ∀ (fuel : nat) (st st' : dense_state),
    dense_steps n st = Ok st' →
    (∀ k stk, (k < n)%nat → dense_steps k st = Ok stk →
              (rk_t1 (self_rk_state (ds_solver stk)) < next_t)%Q) →
    (next_t <= rk_t1 (self_rk_state (ds_solver st')))%Q →
    (n < fuel)%nat →
    dense_while fuel next_t st = Ok st'.
Proof.
  induction n as [|n IH]; intros fuel st st' Hsteps Hbefore Hreached Hfuel;
    (destruct fuel as [|fuel]; [lia|]); simpl in *.
  - injection Hsteps as <-. by rewrite (proj2 (Qlt_bool_false _ _) Hreached).
  - rewrite (proj2 (Qlt_bool_true _ _) (Hbefore 0%nat st ltac:(lia) eq_refl)).
    inv_bind Hsteps. rewrite Ha. simpl. apply IH; [done| |done|lia].
    intros k stk Hk Hstk. apply (Hbefore (S k)); [lia|].
    simpl. by rewrite Ha.
Qed.

(** *** The archive of accepted steps *)

Lemma sorted_below_last (l : list Q) (x : Q) :
  StronglySorted Qlt l → last l = Some x → Forall (λ z, (z <= x)%Q) l.
Proof.
  induction 1 as [|a l Hl IH Ha]; [done|].
  destruct l as [|b l].
  - intros [= <-]. constructor; [apply Qle_refl|done].
  - intros Hlast. change (last (b :: l) = Some x) in Hlast.
    specialize (IH Hlast). constructor; [|done].
    apply Forall_cons in Ha as [Hab _]. apply Forall_cons in IH as [Hbx _].
    apply Qlt_le_weak. by eapply Qlt_le_trans.
Qed.

Lemma sorted_snoc (l : list Q) (x y : Q) :
  StronglySorted Qlt l → last l = Some x → (x < y)%Q →
  StronglySorted Qlt (l ++ [y]).
Proof.
  intros Hl Hlast Hxy. pose proof (sorted_below_last l x Hl Hlast) as Hbelow.
  clear Hlast. induction Hl as [|a l Hl IH Ha]; simpl.
  - repeat constructor.
  - apply Forall_cons in Hbelow as [Hax Hbelow]. constructor; [by apply IH|].
    apply Forall_app. split; [done|]. repeat constructor.
    by eapply Qle_lt_trans.
Qed.

(** What one round of the loop body does to the archive: a step that
    leaves the right endpoint at the local [t0] appends nothing, any other
    step appends its right endpoint and its coefficients. *)
Lemma dense_step_archive (st st' : dense_state) :
  dense_step st = Ok st' →
  ∃ rk self',
    _adaptive_step (self_rk_state (ds_solver st)) (ds_solver st)
      = Ok (rk, self') ∧
    self_rk_state (ds_solver st') = rk ∧
    ds_solution st' = ds_solution st ∧
    if Qeq_bool (rk_t1 rk) (ds_t0 st)
    then ds_t0 st' = ds_t0 st ∧ ds_times st' = ds_times st ∧
         ds_interp_coeffs st' = ds_interp_coeffs st
    else ds_t0 st' = rk_t1 rk ∧ ds_times st' = ds_times st ++ [rk_t1 rk] ∧
         ds_interp_coeffs st'
           = ds_interp_coeffs st ++ [rk_interp_coeff rk].
Proof.
  unfold dense_step. intros Hstep. inv_bind Hstep. destruct a as [rk self'].
  rewrite rk_state_set in Hstep. exists rk, self'. split; [done|].
  destruct (Qeq_bool (rk_t1 rk) (ds_t0 st)); simpl in Hstep.
  - injection Hstep as <-. simpl. by rewrite rk_state_set.
  - inv_bind Hstep. injection Hstep as <-. simpl. rewrite rk_state_set.
    unfold torch_stack, stack_by in Ha0.
    destruct (rk_interp_coeff rk); [done|].
    destruct (forallb _ _); by simplify_eq.
Qed.

(** The loop body keeps the invariant when a step never moves the right
    endpoint backwards. *)
Lemma dense_step_inv (st st' : dense_state) :
  (∀ rk self rk' self',
     _adaptive_step rk self = Ok (rk', self') → (rk_t1 rk <= rk_t1 rk')%Q) →
  archive_inv st → dense_step st = Ok st' → archive_inv st'.
Proof.
  intros Hmono (Hsorted & Hlast & Ht0 & Hlen) Hstep.
  apply dense_step_archive in Hstep
    as (rk & self' & Hrk & Hrk' & _ & Hcases).
  apply Hmono in Hrk. unfold archive_inv. rewrite Hrk'.
  destruct (Qeq_bool (rk_t1 rk) (ds_t0 st)) eqn:Heq.
  - destruct Hcases as (-> & -> & ->). split_and!; try done.
    apply Qeq_bool_eq in Heq. by symmetry.
  - destruct Hcases as (-> & -> & ->). split_and!.
    + apply (sorted_snoc _ (ds_t0 st)); [done..|].
      apply Qeq_bool_neq in Heq. rewrite <- Ht0 in Hrk.
      apply Qle_lt_or_eq in Hrk as [?|Hrk]; [done|]. by symmetry in Hrk.
    + by rewrite last_snoc.
    + apply Qeq_refl.
    + rewrite !length_app. simpl. lia.
Qed.

(** *** The trajectory the loop fills *)

Lemma dense_while_solution (next_t : Q) (fuel : nat) :
  ∀ st st', dense_while fuel next_t st = Ok st' →
            ds_solution st' = ds_solution st.
Proof.
  induction fuel as [|fuel IH]; intros st st' Hrun; simpl in Hrun; [done|].
  destruct (Qlt_bool _ _); [|by injection Hrun as <-].
  inv_bind Hrun. rewrite (IH _ _ Hrun).
  by apply dense_step_archive in Ha as (_ & _ & _ & _ & -> & _).
Qed.

(** C4: for a requested time [next_t], the loop of [odeint_dense] takes
    steps while the right endpoint [t1] of the solver state is below
    [next_t]; at the first state with [t1 >= next_t] it stops, evaluates the
    interpolant at [next_t] on the coefficients and endpoints of that
    current state, and stores the value as row [i] of the output.  The other
    rows, the solver object and the archive under construction are what the
    steps left, and the requested times are visited in order, each on the
    state the previous one left. *)
Theorem dense_loop_steps_then_interpolates (fuel : nat) (next_t : Q)
    (ts : list Q) (i n : nat) (st st' : dense_state) (row y : Tensor) :
  dense_steps n st = Ok st' →
  (∀ k stk, (k < n)%nat → dense_steps k st = Ok stk →
            (rk_t1 (self_rk_state (ds_solver stk)) < next_t)%Q) →
  (next_t <= rk_t1 (self_rk_state (ds_solver st')))%Q →
  (n < fuel)%nat →
  let rk := self_rk_state (ds_solver st') in
  _interp_evaluate (rk_interp_coeff rk) (rk_t0 rk) (rk_t1 rk) next_t = Ok y →
  ds_solution st !! i = Some row →
  shape y = shape row →
  dense_while fuel next_t st = Ok st' ∧
  ∃ st'',
    dense_output_row fuel next_t i st = Ok st'' ∧
    ds_solution st'' !! i = Some y ∧
    length (ds_solution st'') = length (ds_solution st) ∧
    (∀ j, j ≠ i → ds_solution st'' !! j = ds_solution st !! j) ∧
    ds_solver st'' = ds_solver st' ∧
    ds_t0 st'' = ds_t0 st' ∧
    ds_times st'' = ds_times st' ∧
    ds_interp_coeffs st'' = ds_interp_coeffs st' ∧
    dense_for fuel (next_t :: ts) i st = dense_for fuel ts (S i) st''.
Proof.
  intros Hsteps Hbefore Hreached Hfuel rk Hy Hrow Hshape.
  pose proof (dense_while_steps next_t n fuel st st' Hsteps Hbefore Hreached
                Hfuel) as Hwhile.
  pose proof (dense_while_solution _ _ _ _ Hwhile) as Hsol.
  split; [done|].
  assert (dense_output_row fuel next_t i st
          = Ok (with_solution (<[i:=y]> (ds_solution st)) st')) as Hout.
  { unfold dense_output_row. rewrite Hwhile. simpl. fold rk. rewrite Hy.
    simpl. unfold setitem. rewrite Hsol, Hrow.
    by rewrite (copy_same_shape _ _ Hshape). }
  exists (with_solution (<[i:=y]> (ds_solution st)) st').
  split_and!; try done; simpl.
  - apply list_lookup_insert_eq. by eapply lookup_lt_Some.
  - apply length_insert.
  - intros j Hj. by apply list_lookup_insert_ne.
  - by rewrite Hout.
Qed.

Lemma dense_for_rows (like : Tensor) (fuel : nat) (ts : list Q) :
  ∀ i st st',
    dense_for fuel ts i st = Ok st' →
    Forall (λ r, shape r = shape like) (ds_solution st) →
    length (ds_solution st') = length (ds_solution st) ∧
    Forall (λ r, shape r = shape like) (ds_solution st') ∧
    ∀ j, (j < i)%nat → ds_solution st' !! j = ds_solution st !! j.
Proof.
  induction ts as [|next_t ts IH]; intros i st st' Hrun Hshape;
    simpl in Hrun.
  - by injection Hrun as <-.
  - inv_bind Hrun. unfold dense_output_row in Ha.
    inv_bind Ha. inv_bind Ha. inv_bind Ha. injection Ha as <-.
    apply dense_while_solution in Ha0. rewrite Ha0 in Ha2.
    apply setitem_inv in Ha2 as (row & r & Hrow & Hr & ->).
    apply IH in Hrun as (Hlen & Hshape' & Hpre); simpl in *.
    + rewrite length_insert in Hlen. split_and!; [done..|].
      intros j Hj. rewrite Hpre by lia. apply list_lookup_insert_ne. lia.
    + apply Forall_insert; [done|].
      rewrite Hr. by apply (Forall_lookup_1 _ _ _ _ Hshape Hrow).
Qed.

(** The trajectory the loop of [odeint_dense] leaves has one row per
    element of the checked time sequence, each of the shape of the state,
    and starts with the initial state of the solver. *)
Lemma odeint_dense_loop_rows (fuel : nat) (func : Func)
    (y0 : state_in Tensor) (t0 t1 : Q) (rtol atol : Tol)
    (method : option string) (options : option Options)
    (st : dense_state) :
  odeint_dense_loop fuel func y0 t0 t1 rtol atol method options = Ok st →
  ∃ c solver,
    _check_inputs func y0 (to_like t0 <$> [t0; t1]) rtol atol method options
      None = Ok c ∧
    Dopri5Solver_init (c_func c) (c_y0 c) (c_rtol c) (c_atol c) (c_options c)
      = Ok solver ∧
    length (ds_solution st) = length (c_t c) ∧
    Forall (λ r, shape r = shape (self_y0 solver)) (ds_solution st) ∧
    ds_solution st !! 0%nat = Some (self_y0 solver).
Proof.
  unfold odeint_dense_loop, odeint_dense_init. intros Hrun.
  inv_bind Hrun. destruct a as [t st0]. inv_bind Ha. inv_bind Ha.
  inv_bind Ha. inv_bind Ha. inv_bind Ha. inv_bind Ha.
  injection Ha as <- <-. exists a0, a2. split; [done|]. split; [done|].
  destruct (c_t a0) as [|t_0 ts]; [done|]. simpl in Ha4.
  unfold setitem in Ha4. simpl in Ha4. rewrite copy_empty_like in Ha4.
  injection Ha4 as <-.
  apply (dense_for_rows (self_y0 a2)) in Hrun as (Hlen & Hshape & Hpre);
    simpl in *.
  - split_and!; [|done|].
    + rewrite Hlen. by rewrite length_replicate.
    + by rewrite Hpre by lia.
  - constructor; [done|]. apply Forall_replicate, shape_empty_like.
Qed.

(** *** Reachable loop states *)

Lemma dense_while_reach (next_t : Q) (st0 : dense_state) (fuel : nat) :
  ∀ st st', dense_reach st0 st → dense_while fuel next_t st = Ok st' →
            dense_reach st0 st'.
Proof.
  induction fuel as [|fuel IH]; intros st st' Hreach Hrun; simpl in Hrun;
    [done|].
  destruct (Qlt_bool _ _); [|by injection Hrun as <-].
  inv_bind Hrun. eapply IH; [|done]. by eapply reach_step.
Qed.

Lemma dense_for_reach (fuel : nat) (st0 : dense_state) (ts : list Q) :
  ∀ i st st', dense_reach st0 st → dense_for fuel ts i st = Ok st' →
              dense_reach st0 st'.
Proof.
  induction ts as [|next_t ts IH]; intros i st st' Hreach Hrun; simpl in Hrun.
  - by injection Hrun as <-.
  - inv_bind Hrun. eapply IH; [|done].
    unfold dense_output_row in Ha. inv_bind Ha. inv_bind Ha. inv_bind Ha.
    injection Ha as <-. apply reach_row. by eapply dense_while_reach.
Qed.

Lemma dense_reach_inv (st0 st : dense_state) :
  (∀ rk self rk' self',
     _adaptive_step rk self = Ok (rk', self') → (rk_t1 rk <= rk_t1 rk')%Q) →
  archive_inv st0 → dense_reach st0 st → archive_inv st.
Proof.
  intros Hmono Hinv0. induction 1 as [|st st' _ IH Hstep|st solution _ IH].
  - done.
  - by eapply dense_step_inv.
  - done.
Qed.

(** The archive [odeint_dense] returns is the one its loop leaves. *)
Lemma odeint_dense_inv (fuel : nat) (func : Func) (y0 : state_in Tensor)
    (t0 t1 : Q) (rtol atol : Tol) (method : option string)
    (options : option Options) (a : archive Tensor) :
  odeint_dense fuel func y0 t0 t1 rtol atol method options = Ok a →
  ∃ t st0 st,
    odeint_dense_init func y0 t0 t1 rtol atol method options = Ok (t, st0) ∧
    dense_reach st0 st ∧
    a_times a = ds_times st ∧ a_interp_coeffs a = ds_interp_coeffs st ∧
    stack_by rows_shape (ds_interp_coeffs st) = Ok (ds_interp_coeffs st).
Proof.
  unfold odeint_dense, odeint_dense_loop. intros Hrun.
  inv_bind Hrun. inv_bind Ha. destruct a1 as [t st0].
  inv_bind Hrun. inv_bind Hrun. injection Hrun as <-.
  exists t, st0, a0. simpl. split; [done|].
  split; [by eapply dense_for_reach; [apply reach_start|]|].
  unfold stack_by in Ha1, Ha2.
  destruct (ds_times a0); [done|]. destruct (forallb _ _) in Ha1; [|done].
  destruct (ds_interp_coeffs a0) as [|c0 cs] eqn:Hcs; [done|].
  unfold stack_by. destruct (forallb _ _) in Ha2 |- *; by simplify_eq.
Qed.

End DenseFacts.

(** ** The dense entry point on the solver of the specification *)

Section SpecDenseFacts.
Context {Tensor : Type} `{TensorOps Tensor}.
Context {Func Tol Options EventFn : Type}.
Context `{!Misc (Tensor:=Tensor) (Func:=Func) (Tol:=Tol) (Options:=Options)
             (EventFn:=EventFn)}.
Context `{!InterpBasis (Tensor:=Tensor)}.
Variable scheme_of : Func → Tol → Tol → Options → result (scheme Tensor).

Let rk_inst := spec_rk_solver scheme_of.
#[local] Existing Instance rk_inst.

(** A trial step either is accepted, and then moves the right endpoint
    strictly forward and installs the coefficients of the step, or is
    rejected, and then changes the step size only. *)
Lemma attempt_step_cases (sch : scheme Tensor) (rk rk' : rk_state Tensor) :
  attempt_step sch rk = Ok rk' →
  ∃ y_new ratio coeffs,
    sch_step sch (rk_y1 rk) (rk_t1 rk) (rk_dt rk) = Ok (y_new, ratio, coeffs) ∧
    (rk_t1 rk < rk_t1 rk + rk_dt rk)%Q ∧
    ((ratio <= 1)%Q ∧
     rk' = {| rk_y1 := y_new; rk_t0 := rk_t1 rk;
              rk_t1 := (rk_t1 rk + rk_dt rk)%Q;
              rk_dt := sch_next_step_size sch (rk_dt rk) ratio;
              rk_interp_coeff := coeffs |}
     ∨
     ¬ (ratio <= 1)%Q ∧
     rk' = {| rk_y1 := rk_y1 rk; rk_t0 := rk_t0 rk; rk_t1 := rk_t1 rk;
              rk_dt := sch_next_step_size sch (rk_dt rk) ratio;
              rk_interp_coeff := rk_interp_coeff rk |}).
Proof.
  unfold attempt_step. intros Hstep.
  destruct (Qle_bool (rk_t1 rk + rk_dt rk) (rk_t1 rk)) eqn:Hguard; [done|].
  inv_bind Hstep. destruct a as [[y_new ratio] coeffs]. simpl in Hstep.
  exists y_new, ratio, coeffs. split; [done|]. split.
  { apply Qnot_le_lt. intros Hle. apply Qle_bool_iff in Hle. congruence. }
  destruct (Qle_bool ratio 1) eqn:Hratio; injection Hstep as <-.
  - left. by apply Qle_bool_iff in Hratio.
  - right. split; [|done]. intros Hle. apply Qle_bool_iff in Hle. congruence.
Qed.

Lemma spec_step_monotone (rk : rk_state Tensor) (self : spec_solver Tensor)
    (rk' : rk_state Tensor) (self' : spec_solver Tensor) :
  _adaptive_step rk self = Ok (rk', self') → (rk_t1 rk <= rk_t1 rk')%Q.
Proof.
  simpl. intros Hstep. inv_bind Hstep. injection Hstep as <- <-.
  apply attempt_step_cases in Ha
    as (y_new & ratio & coeffs & _ & Hdt & [[_ ->]|[_ ->]]); simpl.
  - by apply Qlt_le_weak.
  - apply Qle_refl.
Qed.

(** The loop starts from a one-breakpoint archive on an empty interval. *)
Lemma spec_init_inv (func : Func) (y0 : state_in Tensor) (t0 t1 : Q)
    (rtol atol : Tol) (method : option string) (options : option Options)
    (t : list Q) (st0 : dense_state) :
  odeint_dense_init func y0 t0 t1 rtol atol method options = Ok (t, st0) →
  archive_inv st0 ∧ ds_interp_coeffs st0 = [] ∧
  ds_times st0 = [rk_t1 (self_rk_state (ds_solver st0))].
Proof.
  unfold odeint_dense_init. intros Hinit.
  inv_bind Hinit. inv_bind Hinit. inv_bind Hinit. inv_bind Hinit.
  inv_bind Hinit. inv_bind Hinit. injection Hinit as <- <-.
  unfold spec_before_integrate in Ha4. inv_bind Ha4. injection Ha4 as <-.
  unfold archive_inv. simpl. split_and!; try done. repeat constructor.
Qed.

(** C6: on the solver of the specification, every loop state of an
    integration run has strictly increasing breakpoint times; one more round
    of the loop appends the new right endpoint and the coefficients of the
    step to the archive when the trial step is accepted and leaves the
    archive as it is when the trial step is rejected; and the archive
    [odeint_dense] returns has strictly increasing breakpoint times. *)
Theorem archive_append_only_strictly_increasing
    (func : Func) (y0 : state_in Tensor) (t0 t1 : Q) (rtol atol : Tol)
    (method : option string) (options : option Options)
    (t : list Q) (st0 : dense_state) :
  odeint_dense_init func y0 t0 t1 rtol atol method options = Ok (t, st0) →
  (∀ st, dense_reach st0 st →
     StronglySorted Qlt (ds_times st) ∧
     ∀ st', dense_step st = Ok st' →
       let rk := self_rk_state (ds_solver st) in
       ∃ y_new ratio coeffs,
         sch_step (ss_scheme (ds_solver st)) (rk_y1 rk) (rk_t1 rk) (rk_dt rk)
           = Ok (y_new, ratio, coeffs) ∧
         ((ratio <= 1)%Q →
          ds_times st' = ds_times st ++ [(rk_t1 rk + rk_dt rk)%Q] ∧
          ds_interp_coeffs st' = ds_interp_coeffs st ++ [coeffs]) ∧
         (¬ (ratio <= 1)%Q →
          ds_times st' = ds_times st ∧
          ds_interp_coeffs st' = ds_interp_coeffs st)) ∧
  (∀ fuel a,
     odeint_dense fuel func y0 t0 t1 rtol atol method options = Ok a →
     StronglySorted Qlt (a_times a)).
Proof.
  intros Hinit. pose proof (spec_init_inv _ _ _ _ _ _ _ _ _ _ Hinit)
    as (Hinv0 & _ & _).
  split.
  - intros st Hreach.
    pose proof (dense_reach_inv st0 st spec_step_monotone Hinv0 Hreach)
      as (Hsorted & Hlast & Ht0 & Hlen).
    split; [done|]. intros st' Hstep rk.
    apply dense_step_archive in Hstep
      as (rk' & self' & Hrk & _ & _ & Hcases).
    simpl in Hrk. inv_bind Hrk. injection Hrk as <- <-.
    apply attempt_step_cases in Ha
      as (y_new & ratio & coeffs & Hsch & Hdt & Hacc).
    exists y_new, ratio, coeffs. split; [done|]. fold rk in Hdt, Hacc.
    destruct Hacc as [[Hratio ->]|[Hratio ->]]; simpl in Hcases.
    + split; [|done]. intros _.
      destruct (Qeq_bool _ _) eqn:Heq; [|by destruct Hcases as (_ & -> & ->)].
      apply Qeq_bool_eq in Heq. fold rk in Ht0. rewrite Ht0 in Heq.
      rewrite Heq in Hdt. by apply Qlt_irrefl in Hdt.
    + split; [done|]. intros _.
      destruct (Qeq_bool _ _) eqn:Heq; [by destruct Hcases as (_ & -> & ->)|].
      apply Qeq_bool_neq in Heq. fold rk in Ht0. by symmetry in Ht0.
  - intros fuel a Hrun.
    apply odeint_dense_inv in Hrun as (t' & st0' & st & Hinit' & Hreach & -> & _).
    rewrite Hinit in Hinit'. injection Hinit' as <- <-.
    by apply (dense_reach_inv st0 st spec_step_monotone Hinv0 Hreach).
Qed.

(** The archives [odeint_dense] returns on the solver of the specification
    are well formed. *)
Lemma spec_archive_wf (fuel : nat) (func : Func) (y0 : state_in Tensor)
    (t0 t1 : Q) (rtol atol : Tol) (method : option string)
    (options : option Options) (a : archive Tensor) :
  odeint_dense fuel func y0 t0 t1 rtol atol method options = Ok a →
  archive_wf a.
Proof.
  intros Hrun.
  apply odeint_dense_inv in Hrun
    as (t & st0 & st & Hinit & Hreach & Htimes & Hcoeffs & Hstack).
  apply spec_init_inv in Hinit as (Hinv0 & _ & _).
  pose proof (dense_reach_inv st0 st spec_step_monotone Hinv0 Hreach)
    as (Hsorted & _ & _ & Hlen).
  unfold archive_wf. by rewrite Htimes, Hcoeffs.
Qed.

End SpecDenseFacts.

(** ** The returned dense-output function *)

Section SearchFacts.

Lemma sorted_lookup_lt (l : list Q) :
  StronglySorted Qlt l →
  ∀ i j x y, (i < j)%nat → l !! i = Some x → l !! j = Some y → (x < y)%Q.
Proof.
  induction 1 as [|a l Hl IH Ha]; intros i j x y Hij Hx Hy; [done|].
  destruct j as [|j]; [lia|]. simpl in Hy. destruct i as [|i]; simpl in Hx.
  - injection Hx as <-. rewrite Forall_lookup in Ha. by eapply Ha.
  - eapply (IH i j); [lia|done..].
Qed.

Lemma sorted_lookup_le (l : list Q) (i j : nat) (x y : Q) :
  StronglySorted Qlt l → (i <= j)%nat →
  l !! i = Some x → l !! j = Some y → (x <= y)%Q.
Proof.
  intros Hl Hij Hx Hy. destruct (decide (i = j)) as [->|Hne].
  - rewrite Hx in Hy. injection Hy as <-. apply Qle_refl.
  - apply Qlt_le_weak. eapply (sorted_lookup_lt l Hl i j); [lia|done..].
Qed.

Lemma bisect_right_S (fuel : nat) (times : list Q) (v : Q) (lo hi : nat) :
  bisect_right (S fuel) times v lo hi =
    if (lo <? hi)%nat then
      match times !! (lo + (hi - lo) / 2)%nat with
      | Some x =>
          if Qle_bool x v
          then bisect_right fuel times v (S (lo + (hi - lo) / 2)) hi
          else bisect_right fuel times v lo (lo + (hi - lo) / 2)
      | None => lo
      end
    else lo.
Proof. done. Qed.

(** Bisection on a sorted sequence keeps every element below [lo] at most
    [v] and every element from [hi] on above [v]. *)
Lemma bisect_right_spec (times : list Q) (v : Q) :
  StronglySorted Qlt times →
  ∀ fuel lo hi,
    (lo <= hi <= length times)%nat → (hi - lo <= fuel)%nat →
    (∀ i x, (i < lo)%nat → times !! i = Some x → (x <= v)%Q) →
    (∀ i x, (hi <= i)%nat → times !! i = Some x → (v < x)%Q) →
    let k := bisect_right fuel times v lo hi in
    (lo <= k <= hi)%nat ∧
    (∀ i x, (i < k)%nat → times !! i = Some x → (x <= v)%Q) ∧
    (∀ i x, (k <= i)%nat → times !! i = Some x → (v < x)%Q).
Proof.
  intros Hsorted. induction fuel as [|fuel IH];
    intros lo hi Hrange Hfuel Hbelow Habove.
  - simpl. assert (hi = lo) as -> by lia. split_and!; [lia..|done|done].
  - rewrite bisect_right_S. destruct (lo <? hi)%nat eqn:Hlt.
    2:{ apply Nat.ltb_ge in Hlt. assert (hi = lo) as -> by lia.
        split_and!; [lia..|done|done]. }
    apply Nat.ltb_lt in Hlt.
    pose proof (Nat.div_mod_eq (hi - lo) 2) as Hdiv.
    pose proof (Nat.mod_upper_bound (hi - lo) 2 ltac:(lia)) as Hmod.
    set (mid := (lo + (hi - lo) / 2)%nat) in *.
    assert (lo <= mid < hi)%nat as Hmid by (subst mid; lia).
    destruct (lookup_lt_is_Some_2 times mid ltac:(lia)) as [x Hx].
    rewrite Hx. destruct (Qle_bool x v) eqn:Hxv.
    + apply Qle_bool_iff in Hxv.
      destruct (IH (S mid) hi) as (Hk & Hlow & Hhigh); [lia|lia| |done|].
      { intros i y Hi Hy. apply Qle_trans with x; [|done].
        eapply (sorted_lookup_le times i mid); [done|lia|done..]. }
      split_and!; [lia|lia|done..].
    + assert (v < x)%Q as Hvx.
      { apply Qnot_le_lt. intros Hle. apply Qle_bool_iff in Hle. congruence. }
      destruct (IH lo mid) as (Hk & Hlow & Hhigh); [lia|lia|done| |].
      { intros i y Hi Hy. apply Qlt_le_trans with x; [done|].
        eapply (sorted_lookup_le times mid i); [done|lia|done..]. }
      split_and!; [lia|lia|done..].
Qed.

(** [searchsorted(..., side="right")] on strictly increasing breakpoints:
    the index of the first breakpoint above [v]. *)
Lemma searchsorted_right_spec (times : list Q) (v : Q) :
  StronglySorted Qlt times →
  let k := searchsorted_right times v in
  (k <= length times)%nat ∧
  (∀ i x, (i < k)%nat → times !! i = Some x → (x <= v)%Q) ∧
  (∀ i x, (k <= i)%nat → times !! i = Some x → (v < x)%Q).
Proof.
  intros Hsorted. unfold searchsorted_right.
  destruct (bisect_right_spec times v Hsorted (length times) 0 (length times))
    as (Hk & Hlow & Hhigh); [lia|lia|intros; lia| |].
  { intros i x Hi Hx. apply lookup_lt_Some in Hx. lia. }
  split_and!; [lia|done..].
Qed.

Lemma searchsorted_right_interval (times : list Q) (v ta tb : Q) (k : nat) :
  StronglySorted Qlt times →
  times !! k = Some ta → times !! S k = Some tb →
  (ta <= v)%Q → (v < tb)%Q →
  searchsorted_right times v = S k.
Proof.
  intros Hsorted Hta Htb Hle Hlt.
  destruct (searchsorted_right_spec times v Hsorted) as (_ & Hlow & Hhigh).
  destruct (decide (searchsorted_right times v <= k)%nat) as [Hk|Hk].
  { specialize (Hhigh k ta Hk Hta). by apply Qlt_not_le in Hhigh. }
  destruct (decide (S k < searchsorted_right times v)%nat) as [Hk'|Hk'].
  { specialize (Hlow (S k) tb Hk' Htb). by apply Qlt_not_le in Hlt. }
  lia.
Qed.


Lemma searchsorted_right_before (times : list Q) (v tf : Q) :
  StronglySorted Qlt times → head times = Some tf → (v < tf)%Q →
  searchsorted_right times v = 0%nat.
Proof.
  intros Hsorted Hhead Hlt.
  destruct (searchsorted_right_spec times v Hsorted) as (_ & Hlow & _).
  destruct (searchsorted_right times v) as [|k]; [done|].
  rewrite head_lookup in Hhead.
  specialize (Hlow 0%nat tf ltac:(lia) Hhead). by apply Qlt_not_le in Hlt.
Qed.

End SearchFacts.

Section DenseOutputFacts.
Context {Tensor : Type} `{TensorOps Tensor} `{!InterpBasis (Tensor:=Tensor)}.

Lemma getitem_minus_one {A} (xs : list A) (x : A) :
  last xs = Some x → getitem xs (-1) = Ok x.
Proof.
  intros Hlast. apply last_Some in Hlast as [xs' ->]. apply getitem_last.
Qed.

(** Reading the rows of one entry back through the index of the entry. *)
Lemma for_each_rows {A} (entries : list (list A)) (j : Z) (c : list A)
    (m : nat) :
  getitem entries j = Ok c →
  ∀ s, (s + m <= length c)%nat →
       for_each (λ i, c' ← getitem entries j; getitem c' (Z.of_nat i))
         (seq s m) = Ok (take m (drop s c)).
Proof.
  intros Hc. induction m as [|m IH]; intros s Hlen; [done|].
  destruct (lookup_lt_is_Some_2 c s ltac:(lia)) as [x Hx].
  rewrite (drop_S _ _ _ Hx). cbn [seq for_each take].
  rewrite IH by lia. rewrite Hc. cbn [mbind result_bind].
  by rewrite (getitem_nat _ _ _ Hx).
Qed.

Lemma stack_rows_length (entries : list (list Tensor)) :
  stack_by rows_shape entries = Ok entries →
  ∃ c0 rest, entries = c0 :: rest ∧
             Forall (λ c, length c = length c0) entries.
Proof.
  unfold stack_by. destruct entries as [|c0 rest]; [done|].
  destruct (forallb _ _) eqn:Hall; [|done]. intros _. exists c0, rest.
  split; [done|]. constructor; [done|].
  rewrite forallb_forall in Hall. apply Forall_forall.
  intros c Hin. apply list_elem_of_In in Hin. specialize (Hall c Hin).
  apply bool_decide_eq_true in Hall.
  unfold rows_shape in Hall. by injection Hall.
Qed.

Lemma archive_coef (a : archive Tensor) (j : Z) (c : list Tensor) :
  archive_wf a → getitem (a_interp_coeffs a) j = Ok c →
  for_each (λ i, c' ← getitem (a_interp_coeffs a) j; getitem c' (Z.of_nat i))
    (seq 0 match a_interp_coeffs a with [] => 0%nat | c0 :: _ => length c0 end)
    = Ok c.
Proof.
  intros (_ & _ & Hstack) Hc.
  apply stack_rows_length in Hstack as (c0 & rest & Hentries & Hlen).
  rewrite Hentries in Hc |- *. rewrite <- Hentries in Hc |- *.
  assert (length c = length c0) as Hlenc.
  { rewrite Forall_forall in Hlen. apply Hlen. unfold getitem in Hc.
    destruct (_ && _); [|done].
    destruct (a_interp_coeffs a !! _) as [c'|] eqn:Hlook; [|done].
    injection Hc as ->. by eapply list_elem_of_lookup_2. }
  rewrite (for_each_rows _ _ c) by (done || lia).
  by rewrite drop_0, <- Hlenc, firstn_all.
Qed.

(** A query inside the interval between two consecutive breakpoints is
    answered by the evaluation routine of the forward pass, on the
    coefficients and endpoints stored for that interval. *)
Lemma dense_output_fn_in_range (a : archive Tensor) (k : nat) (ta tb t : Q)
    (c : list Tensor) :
  archive_wf a →
  a_times a !! k = Some ta → a_times a !! S k = Some tb →
  a_interp_coeffs a !! k = Some c →
  (ta <= t)%Q → (t < tb)%Q →
  dense_output_fn a t = _interp_evaluate c ta tb t.
Proof.
  intros Hwf Hta Htb Hc Hle Hlt. pose proof Hwf as (Hsorted & _ & _).
  unfold dense_output_fn.
  rewrite (searchsorted_right_interval _ _ ta tb k) by done.
  replace (Z.of_nat (S k) - 1)%Z with (Z.of_nat k) by lia.
  rewrite (getitem_nat _ _ _ Hta), (getitem_nat _ _ _ Htb). simpl.
  by rewrite (archive_coef a _ c Hwf (getitem_nat _ _ _ Hc)).
Qed.



End DenseOutputFacts.

Section OutOfRange.
Context {Tensor : Type} `{TensorOps Tensor} `{!InterpBasis (Tensor:=Tensor)}.
Context {Func Tol Options : Type}.
Context {Self : Type} `{!AdaptiveStepsizeODESolver (Tensor:=Tensor) Self}.
Context `{!RKAdaptiveStepsizeODESolver (Func:=Func) (Tol:=Tol)
             (Options:=Options) Self}.



End OutOfRange.

(** ** The development on concrete inputs *)

Import Example.
#[local] Open Scope Q_scope.

Example decay_archive_run :
  odeint_dense 8 decay (TensorIn [1%Q]) 0 1 (1 # 10) (1 # 10) None
    (Some big_first_step) = Ok decay_archive.
Proof. vm_compute. reflexivity. Qed.

Example decay_archive_wf : archive_wf decay_archive.
Proof. exact (spec_archive_wf _ _ _ _ _ _ _ _ _ _ _ decay_archive_run). Qed.

(** C1 on [dy/dt = -y], [y0 = 1] and the event [y = 1/2]. *)
Lemma integrate_until_event_two_rows_decay :
  ∃ solution,
    integrate_until_event 0 below_half decay_solver
      = Ok ((6 # 8, solution), decay_solver_at default_options rk_at_event) ∧
    length solution = 2%nat ∧
    solution !! 0%nat = Some [1] ∧
    solution !! 1%nat = Some [125 # 256].
Proof.
  refine (integrate_until_event_two_rows (Tensor:=vec) 0 below_half
            decay_solver (decay_solver_at default_options (rk_start (1 # 4)))
            (decay_solver_at default_options rk_at_event)
            (6 # 8) [125 # 256] _ _ _ _);
    vm_compute; reflexivity.
Defined.

(** C2 on [dy/dt = -y], [y0 = 1] and the times [0, 1, 2]. *)
Lemma integrate_one_row_per_time_decay :
  ∃ solution,
    integrate [0; 1; 2] decay_solver
      = Ok (solution, decay_solver_at default_options rk_after_two) ∧
    solution = [[1]; [1625 # 4096]; [40625 # 262144]] ∧
    length solution = 3%nat ∧
    Forall (λ r, shape r = [1%nat]) solution ∧
    solution !! 0%nat = Some [1].
Proof.
  refine (integrate_one_row_per_time (Tensor:=vec) [0; 1; 2] decay_solver
            (decay_solver_at default_options (rk_start (1 # 4)))
            (decay_solver_at default_options rk_after_two)
            [[1625 # 4096]; [40625 # 262144]] _ _ _ _);
    [done | vm_compute; reflexivity | vm_compute; reflexivity
    | repeat constructor].
Defined.


(** After the last breakpoint the error is the one of the breakpoint
    lookup: the evaluation routine, which signals
    [OutOfInterpolationRange], is not reached. *)
Example dense_output_after_last_not_range_error :
  odeint_dense 8 decay (TensorIn [1]) 0 1 (1 # 10) (1 # 10) None
    (Some big_first_step) = Ok decay_archive ∧
  last (a_times decay_archive) = Some (4 # 4) ∧
  (4 # 4) + interp_tol < 2 ∧
  dense_output_fn decay_archive 2 = Raise IndexError.
Proof.
  split; [exact decay_archive_run|]. split; [reflexivity|].
  split; [reflexivity|]. by vm_compute.
Qed.

(** C5 at its failing input: for [dy/dt = 0] and a first trial step of 1
    the only step is accepted and ends on the requested final time [1].  The
    query [1] belongs to the interval [[0, 1]] of that step, on which the
    evaluation routine yields the state, but the returned function raises
    [IndexError] and never reaches the evaluation routine. *)
Theorem dense_output_last_breakpoint_index_error :
  odeint_dense 8 still (TensorIn [1]) 0 1 (1 # 10) (1 # 10) None
    (Some unit_first_step) = Ok still_archive ∧
  a_times still_archive !! 0%nat = Some 0 ∧
  a_times still_archive !! 1%nat = Some 1 ∧
  a_interp_coeffs still_archive !! 0%nat = Some [[1]; [1]] ∧
  _interp_evaluate [[1]; [1]] 0 1 1 = Ok [1] ∧
  searchsorted_right (a_times still_archive) 1 = 2%nat ∧
  dense_output_fn still_archive 1 = Raise IndexError.
Proof. by vm_compute. Qed.

(** Inside the archived range the returned function does delegate: the
    query [3/4] is answered from the second interval. *)
Lemma dense_output_delegates_decay :
  dense_output_fn decay_archive (3 # 4)
    = _interp_evaluate [[5 # 8]; [25 # 64]] (1 # 2) (4 # 4) (3 # 4).
Proof.
  refine (dense_output_fn_in_range decay_archive 1 (1 # 2) (4 # 4)
            (3 # 4) [[5 # 8]; [25 # 64]] decay_archive_wf _ _ _ _ _);
    reflexivity || done.
Defined.

(** C4 on the decay run with a first trial step of 2: two rejected and two
    accepted rounds reach the requested time 1, and row 1 of the output is
    the interpolant there, [25/64]; row 0 stays the initial state. *)
Lemma dense_loop_steps_then_interpolates_decay :
  odeint_dense_init decay (TensorIn [1]) 0 1 (1 # 10) (1 # 10) None
    (Some big_first_step) = Ok ([0; 1], dense_start) ∧
  dense_steps 4 dense_start = Ok dense_after_four ∧
  dense_while 8 1 dense_start = Ok dense_after_four ∧
  _interp_evaluate [[5 # 8]; [25 # 64]] (1 # 2) (4 # 4) 1 = Ok [25 # 64] ∧
  ∃ st'',
    dense_output_row 8 1 1 dense_start = Ok st'' ∧
    ds_solution st'' !! 1%nat = Some [25 # 64] ∧
    ds_solution st'' !! 0%nat = Some [1] ∧
    ds_solver st'' = ds_solver dense_after_four ∧
    ds_times st'' = a_times decay_archive.
Proof.
  split; [vm_compute; reflexivity|]. split; [vm_compute; reflexivity|].
  assert (∀ k stk, (k < 4)%nat → dense_steps k dense_start = Ok stk →
                   rk_t1 (self_rk_state (ds_solver stk)) < 1) as Hbefore.
  { intros k stk Hk Hstk.
    destruct k as [|[|[|[|k]]]]; [..|lia];
      vm_compute in Hstk; injection Hstk as <-; reflexivity. }
  destruct (dense_loop_steps_then_interpolates (Tensor:=vec)
              (Self:=spec_solver vec) 8 1 [] 1 4 dense_start
              dense_after_four [0] [25 # 64])
    as (Hwhile & st'' & Hrow & Hi & _ & Hother & Hsolver & _ & Htimes & _);
    [vm_compute; reflexivity | exact Hbefore | vm_compute; discriminate
    | lia | vm_compute; reflexivity | reflexivity | reflexivity |].
  split; [exact Hwhile|]. split; [vm_compute; reflexivity|].
  exists st''. split; [exact Hrow|]. split; [exact Hi|].
  split; [exact (Hother 0%nat ltac:(discriminate))|].
  split; [exact Hsolver|exact Htimes].
Defined.

(** C6 on the decay run with a first trial step of 2: the returned
    breakpoints increase strictly, and the first round of the loop, whose
    trial step is rejected, appends nothing. *)
Lemma archive_append_only_decay :
  StronglySorted Qlt (a_times decay_archive) ∧
  ∀ st', dense_step dense_start = Ok st' →
         ds_times st' = ds_times dense_start ∧
         ds_interp_coeffs st' = ds_interp_coeffs dense_start.
Proof.
  destruct (archive_append_only_strictly_increasing (Tensor:=vec) heun_euler
              decay (TensorIn [1]) 0 1 (1 # 10) (1 # 10) None
              (Some big_first_step) [0; 1] dense_start)
    as [Hreach Hfinal]; [vm_compute; reflexivity|].
  split; [exact (Hfinal 8%nat decay_archive decay_archive_run)|].
  intros st' Hstep.
  destruct (proj2 (Hreach dense_start (reach_start _)) st' Hstep)
    as (y_new & ratio & coeffs & Hsch & _ & Hrejected).
  apply Hrejected. vm_compute in Hsch. injection Hsch as _ <- _.
  intros Hle. by vm_compute in Hle.
Defined.

(** C7 on [dy/dt = y], [y0 = 1], the event [y = 1/2] and the decreasing
    times [0, -1]: the event is located at [3/4] in negated time and
    reported at [-3/4]. *)
Lemma odeint_event_time_negated_growth :
  odeint growth (TensorIn [1]) [0; -1] (1 # 10) (1 # 10) None None
    (Some below_half)
  = Ok (EventSolution (- (6 # 8)) (Flat [[1]; [125 # 256]])).
Proof.
  refine (proj1 (odeint_event_time_negated_if_reversed (Tensor:=vec)
                   growth (TensorIn [1]) [0; -1] (1 # 10) (1 # 10) None None
                   (Some below_half)
                   {| c_shapes := None; c_func := reversed growth;
                      c_y0 := [1]; c_t := Qopp <$> [0; -1];
                      c_rtol := 1 # 10; c_atol := 1 # 10;
                      c_method := "dopri5"; c_options := default_options;
                      c_event_fn := Some below_half;
                      c_t_is_reversed := true |}
                   Dopri5Solver
                   (solver_at (reversed growth) default_options rk_unset)
                   (solver_at (reversed growth) default_options rk_at_event)
                   below_half (- 0) (6 # 8) [[1]; [125 # 256]]
                   _ _ _ _ _ _) _);
    vm_compute; reflexivity.
Defined.

(** C7 without reversal: on the increasing times [0, 1] the located event
    time is reported as it is. *)
Example odeint_event_time_decay :
  odeint decay (TensorIn [1]) [0; 1] (1 # 10) (1 # 10) None None
    (Some below_half)
  = Ok (EventSolution (6 # 8) (Flat [[1]; [125 # 256]])).
Proof. vm_compute. reflexivity. Qed.

(** With helpers that let a time sequence of any length through in event
    mode, the outcome for a tuple state does depend on the number of
    requested times: [odeint] hands [len(t)] to [_flat_to_shape] although
    the trajectory of an event solve has two rows. *)
Example odeint_event_depends_on_len_t :
  odeint decay (TupleIn [[1]; [2]]) [0; 1] (1 # 10) (1 # 10) None None
    (Some below_half)
  = Ok (EventSolution (6 # 8)
          (Shaped [[[1]; [125 # 256]]; [[2]; [125 # 128]]])) ∧
  odeint decay (TupleIn [[1]; [2]]) [0; 1; 2] (1 # 10) (1 # 10) None None
    (Some below_half)
  = Raise RuntimeError.
Proof. split; vm_compute; reflexivity. Qed.

(** For a tensor state the same two time sequences give the same result. *)
Example odeint_event_ignores_tail_for_tensor :
  odeint decay (TensorIn [1]) [0; 1; 2] (1 # 10) (1 # 10) None None
    (Some below_half)
  = odeint decay (TensorIn [1]) [0; 1] (1 # 10) (1 # 10) None None
      (Some below_half).
Proof. vm_compute. reflexivity. Qed.

(** C9 on the method name rk4, a key of [SOLVERS] that input checking
    accepts. *)
Lemma odeint_dense_only_dopri5_rk4 :
  odeint_dense 8 decay (TensorIn [1]) 0 1 (1 # 10) (1 # 10) (Some "rk4") None
    = Raise AssertionError
  ∧ odeint_dense_init decay (TensorIn [1]) 0 1 (1 # 10) (1 # 10)
      (Some "rk4") None = Raise AssertionError.
Proof.
  refine (odeint_dense_only_dopri5 (Tensor:=vec) (Self:=spec_solver vec)
            8 decay [1] 0 1 (1 # 10) (1 # 10) (Some "rk4") None
            {| c_shapes := None; c_func := decay; c_y0 := [1];
               c_t := [0; 1]; c_rtol := 1 # 10; c_atol := 1 # 10;
               c_method := "rk4"; c_options := default_options;
               c_event_fn := None; c_t_is_reversed := false |} _ _);
    [vm_compute; reflexivity | discriminate].
Defined.

(** * Further properties of the two files *)

(** ** integrate: one more requested time *)

Section IntegrateAppend.
Context {Tensor : Type} `{TensorOps Tensor}.
Context {Self : Type} `{!AdaptiveStepsizeODESolver (Tensor:=Tensor) Self}.

Lemma setitem_app_l (sol sol' extra : list Tensor) (i : nat) (v : Tensor) :
  setitem sol i v = Ok sol' →
  setitem (sol ++ extra) i v = Ok (sol' ++ extra).
Proof.
  unfold setitem. destruct (sol !! i) as [row|] eqn:Hrow; [|done].
  rewrite (lookup_app_l_Some _ _ _ _ Hrow).
  destruct (copy_ row v) as [r| |]; [simpl|done..]. intros [= <-].
  by rewrite insert_app_l by by eapply lookup_lt_Some.
Qed.

Lemma integrate_loop_app (ts : list Q) (x : Q) (extra : list Tensor) :
  ∀ (i : nat) (sol sol' : list Tensor) (self self' : Self),
    integrate_loop ts i sol self = Ok (sol', self') →
    integrate_loop (ts ++ [x]) i (sol ++ extra) self
      = integrate_loop [x] (i + length ts)%nat (sol' ++ extra) self'.
Proof.
  induction ts as [|ti ts IH]; intros i sol sol' self self' Hrun;
    simpl in Hrun.
  - injection Hrun as <- <-. by rewrite Nat.add_0_r.
  - destruct (_advance ti self) as [[y s1]| |] eqn:Hadv;
      [simpl in Hrun|done..].
    destruct (setitem sol i y) as [sol1| |] eqn:Hset; [simpl in Hrun|done..].
    cbn [app integrate_loop]. rewrite Hadv. cbn.
    rewrite (setitem_app_l _ _ _ _ _ Hset). cbn.
    rewrite (IH _ _ _ _ _ Hrun). cbn [length]. by rewrite Nat.add_succ_r.
Qed.

(** Requesting one more time at the end leaves the rows of the earlier
    times as they were: when [_before_integrate] does the same on the longer
    sequence, [integrate] on [t] followed by [x] returns the trajectory of
    [integrate] on [t] with one more row, the state [_advance] returns for
    [x] on the solver object the shorter run left behind. *)
Theorem integrate_append_time (t : list Q) (x : Q) (self s1 s2 : Self)
    (rows : list Tensor) (y : Tensor) :
  _before_integrate (to_dtype (self_dtype self) <$> t ++ [x]) self
    = _before_integrate (to_dtype (self_dtype self) <$> t) self →
  integrate t self = Ok (rows, s1) →
  _advance (to_dtype (self_dtype self) x) s1 = Ok (y, s2) →
  shape y = shape (self_y0 self) →
  integrate (t ++ [x]) self = Ok (rows ++ [y], s2).
Proof.
  intros Hbefore Hrun Hadv Hshape.
  pose proof (integrate_inv _ _ _ _ Hrun) as (Hlen & _ & _).
  destruct t as [|t0 t]; [discriminate Hrun|]. unfold integrate in *.
  rewrite Hbefore. clear Hbefore. cbn in Hrun |- *.
  unfold setitem in Hrun |- *.
  cbn in Hrun |- *. rewrite copy_empty_like in Hrun |- *. cbn in Hrun |- *.
  destruct (_before_integrate _ self) as [s0| |];
    [cbn in Hrun |- *|by cbn in Hrun..].
  rewrite drop_0 in Hrun |- *. rewrite length_app, replicate_add, fmap_app.
  change (self_y0 self :: replicate (length t) (empty_like (self_y0 self))
            ++ replicate (length [x]) (empty_like (self_y0 self)))
    with ((self_y0 self :: replicate (length t) (empty_like (self_y0 self)))
            ++ [empty_like (self_y0 self)]).
  change (to_dtype (self_dtype self) <$> [x])
    with [to_dtype (self_dtype self) x].
  rewrite (integrate_loop_app _ _ _ _ _ _ _ _ Hrun). cbn [integrate_loop].
  rewrite Hadv. cbn.
  rewrite length_fmap. cbn in Hlen.
  replace (S (length t)) with (length rows) by lia.
  by rewrite setitem_middle by by rewrite shape_empty_like.
Qed.

End IntegrateAppend.

(** ** odeint: what is returned *)

Section OdeintShape.
Context {Tensor : Type} `{TensorOps Tensor}.
Context {Func Tol Options EventFn : Type}.
Context `{!Misc (Tensor:=Tensor) (Func:=Func) (Tol:=Tol) (Options:=Options)
             (EventFn:=EventFn)}.
Context {Solver : Type}
  `{!ODESolver (Tensor:=Tensor) (Func:=Func) (Tol:=Tol) (Options:=Options)
       (EventFn:=EventFn) Solver}.

Lemma getitem_0_head {A} (xs : list A) :
  getitem xs 0 = match head xs with
                 | Some x => Ok x
                 | None => Raise IndexError
                 end.
Proof. by destruct xs. Qed.

(** The kind of value [odeint] returns follows the tuple [_check_inputs]
    returned: a bare solution when its event function is [None] and a pair
    with the event time otherwise; the trajectory tensor when its shapes are
    [None] and the tuple [_flat_to_shape] makes of it otherwise. *)
Theorem odeint_return_kind (func : Func) (y0 : state_in Tensor) (t : list Q)
    (rtol atol : Tol) (method : option string) (options : option Options)
    (event_fn : option EventFn) (out : odeint_out Tensor) :
  odeint func y0 t rtol atol method options event_fn = Ok out →
  ∃ c solution,
    _check_inputs func y0 t rtol atol method options event_fn = Ok c ∧
    match c_event_fn c with
    | None => out = Solution solution
    | Some _ => ∃ event_t, out = EventSolution event_t solution
    end ∧
    match c_shapes c with
    | None => ∃ rows, solution = Flat rows
    | Some _ => ∃ parts, solution = Shaped parts
    end.
Proof.
  unfold odeint. intros Hrun.
  destruct (_check_inputs func y0 t rtol atol method options event_fn)
    as [c| |]; [simpl in Hrun|done..].
  destruct (SOLVERS_getitem (c_method c)) as [cls| |]; [simpl in Hrun|done..].
  destruct (construct cls _ _ _ _ _) as [solver| |]; [simpl in Hrun|done..].
  destruct (c_event_fn c) as [e|] eqn:He.
  - destruct (getitem (c_t c) 0) as [t_0| |]; [simpl in Hrun|done..].
    destruct (solver_integrate_until_event t_0 e solver)
      as [[[event_t rows] solver']| |]; [simpl in Hrun|done..].
    destruct (c_shapes c) as [shapes|] eqn:Hs; simpl in Hrun.
    + destruct (_flat_to_shape rows _ shapes) as [parts| |];
        [simpl in Hrun|done..].
      injection Hrun as <-. exists c, (Shaped parts). rewrite He, Hs. eauto.
    + injection Hrun as <-. exists c, (Flat rows). rewrite He, Hs. eauto.
  - destruct (solver_integrate (c_t c) solver) as [[rows solver']| |];
      [simpl in Hrun|done..].
    destruct (c_shapes c) as [shapes|] eqn:Hs; simpl in Hrun.
    + destruct (_flat_to_shape rows _ shapes) as [parts| |];
        [simpl in Hrun|done..].
      injection Hrun as <-. exists c, (Shaped parts). rewrite He, Hs. eauto.
    + injection Hrun as <-. exists c, (Flat rows). rewrite He, Hs. eauto.
Qed.

(** In event mode and for a tensor state, [odeint] uses the checked time
    sequence only through its first element: two requests whose checked
    tuples differ in nothing but the elements after the first give the same
    outcome. *)
Theorem odeint_event_tensor_uses_first_time_only
    (func : Func) (y0 : state_in Tensor) (t t' : list Q)
    (rtol atol : Tol) (method : option string) (options : option Options)
    (event_fn : option EventFn)
    (c : checked Tensor Func Tol Options EventFn) (e : EventFn)
    (ts' : list Q) :
  _check_inputs func y0 t rtol atol method options event_fn = Ok c →
  _check_inputs func y0 t' rtol atol method options event_fn
    = Ok (with_t ts' c) →
  c_event_fn c = Some e →
  c_shapes c = None →
  head ts' = head (c_t c) →
  odeint func y0 t' rtol atol method options event_fn
    = odeint func y0 t rtol atol method options event_fn.
Proof.
  intros Hc Hc' He Hshapes Hhead. unfold odeint. rewrite Hc, Hc'. simpl.
  destruct (SOLVERS_getitem (c_method c)) as [cls| |]; [simpl|done..].
  destruct (construct cls _ _ _ _ _) as [solver| |]; [simpl|done..].
  rewrite He, Hshapes, !getitem_0_head, Hhead.
  destruct (head (c_t c)) as [t_0|]; [simpl|done].
  by destruct (solver_integrate_until_event t_0 e solver)
    as [[[event_t solution] solver']| |].
Qed.


End OdeintShape.

(** ** odeint over a solver that inherits the methods of solvers.py *)

Section OdeintAdaptive.
Context {Tensor : Type} `{TensorOps Tensor}.
Context {Func Tol Options EventFn : Type}.
Context `{!Misc (Tensor:=Tensor) (Func:=Func) (Tol:=Tol) (Options:=Options)
             (EventFn:=EventFn)}.
Context {Self : Type} `{!AdaptiveStepsizeODESolver (Tensor:=Tensor) Self}.
Context `{!AdaptiveStepsizeEventODESolver EventFn Self}.
Variable ctor :
  solver_class → Func → Tensor → Tol → Tol → Options → result Self.

Let inherited := adaptive_ode_solver ctor.
#[local] Existing Instance inherited.

(** Without an event function, the trajectory [odeint] returns has one row
    per element of the checked time sequence, each of the shape of the
    solver's [y0], and [y0] is its first row; for a tuple state
    [_flat_to_shape] is handed that trajectory with its own number of rows
    as the leading length. *)
Theorem odeint_fixed_grid_rows (func : Func) (y0 : state_in Tensor)
    (t : list Q) (rtol atol : Tol) (method : option string)
    (options : option Options) (event_fn : option EventFn)
    (c : checked Tensor Func Tol Options EventFn)
    (out : odeint_out Tensor) :
  _check_inputs func y0 t rtol atol method options event_fn = Ok c →
  c_event_fn c = None →
  odeint func y0 t rtol atol method options event_fn = Ok out →
  ∃ cls solver rows,
    SOLVERS !! c_method c = Some cls ∧
    ctor cls (c_func c) (c_y0 c) (c_rtol c) (c_atol c) (c_options c)
      = Ok solver ∧
    length rows = length (c_t c) ∧
    Forall (λ r, shape r = shape (self_y0 solver)) rows ∧
    rows !! 0%nat = Some (self_y0 solver) ∧
    match c_shapes c with
    | None => out = Solution (Flat rows)
    | Some shapes =>
        ∃ parts, _flat_to_shape rows [length rows] shapes = Ok parts ∧
                 out = Solution (Shaped parts)
    end.
Proof.
  intros Hc He. unfold odeint, SOLVERS_getitem. rewrite Hc. simpl.
  intros Hrun.
  destruct (SOLVERS !! c_method c) as [cls|]; [simpl in Hrun|done].
  destruct (ctor cls (c_func c) (c_y0 c) (c_rtol c) (c_atol c) (c_options c))
    as [solver| |] eqn:Hsolver; [simpl in Hrun|done..].
  rewrite He in Hrun.
  destruct (integrate (c_t c) solver) as [[rows solver']| |] eqn:Hrows;
    [simpl in Hrun|done..].
  apply integrate_inv in Hrows as (Hlen & Hshape & Hfirst).
  exists cls, solver, rows. split_and!; try done.
  destruct (c_shapes c) as [shapes|]; simpl in Hrun.
  - rewrite <- Hlen in Hrun.
    destruct (_flat_to_shape rows [length rows] shapes) as [parts| |];
      [simpl in Hrun|done..].
    injection Hrun as <-. by exists parts.
  - by injection Hrun as <-.
Qed.

(** An empty checked time sequence makes [odeint] raise [IndexError] in
    both modes: at [solution[0] = self.y0] without an event function, at
    [t[0]] with one. *)
Theorem odeint_empty_times_index_error (func : Func) (y0 : state_in Tensor)
    (t : list Q) (rtol atol : Tol) (method : option string)
    (options : option Options) (event_fn : option EventFn)
    (c : checked Tensor Func Tol Options EventFn) (cls : solver_class)
    (solver : Self) :
  _check_inputs func y0 t rtol atol method options event_fn = Ok c →
  c_t c = [] →
  SOLVERS !! c_method c = Some cls →
  ctor cls (c_func c) (c_y0 c) (c_rtol c) (c_atol c) (c_options c)
    = Ok solver →
  odeint func y0 t rtol atol method options event_fn = Raise IndexError.
Proof.
  intros Hc Ht Hcls Hsolver. unfold odeint, SOLVERS_getitem.
  rewrite Hc. simpl. rewrite Hcls. simpl. rewrite Hsolver. simpl.
  rewrite Ht. by destruct (c_event_fn c).
Qed.

(** With an event function, [odeint] constructs the solver, runs
    [_before_integrate] on the first requested time alone and then
    [_advance_until_event]; the trajectory it works with has the two rows
    [self.y0], as the solver object holds it after the hooks, and the state
    the hook located, whatever the number of requested times is.  The time
    it reports is the time the hook located, negated exactly when
    [t_is_reversed].  For a tuple state [_flat_to_shape] is handed those two
    rows together with the number of requested times as the leading
    length. *)
Theorem odeint_event_two_rows_any_length (func : Func)
    (y0 : state_in Tensor) (t : list Q) (rtol atol : Tol)
    (method : option string) (options : option Options)
    (event_fn : option EventFn)
    (c : checked Tensor Func Tol Options EventFn) (e : EventFn)
    (out : odeint_out Tensor) :
  _check_inputs func y0 t rtol atol method options event_fn = Ok c →
  c_event_fn c = Some e →
  odeint func y0 t rtol atol method options event_fn = Ok out →
  ∃ cls solver t_0 s1 solver' event_time y1,
    SOLVERS !! c_method c = Some cls ∧
    ctor cls (c_func c) (c_y0 c) (c_rtol c) (c_atol c) (c_options c)
      = Ok solver ∧
    head (c_t c) = Some t_0 ∧
    _before_integrate [to_dtype (self_dtype solver) t_0] solver = Ok s1 ∧
    _advance_until_event e s1 = Ok ((event_time, y1), solver') ∧
    shape y1 = shape (self_y0 solver') ∧
    let rows := [self_y0 solver'; y1] in
    let event_t := if c_t_is_reversed c then (- event_time)%Q
                   else event_time in
    match c_shapes c with
    | None => out = EventSolution event_t (Flat rows)
    | Some shapes =>
        ∃ parts,
          _flat_to_shape rows [length (c_t c)] shapes = Ok parts ∧
          out = EventSolution event_t (Shaped parts)
    end.
Proof.
  intros Hc He. unfold odeint, SOLVERS_getitem. rewrite Hc. simpl.
  intros Hrun.
  destruct (SOLVERS !! c_method c) as [cls|]; [simpl in Hrun|done].
  destruct (ctor cls (c_func c) (c_y0 c) (c_rtol c) (c_atol c) (c_options c))
    as [solver| |] eqn:Hsolver; [simpl in Hrun|done..].
  rewrite He, getitem_0_head in Hrun.
  destruct (head (c_t c)) as [t_0|]; [simpl in Hrun|done].
  destruct (integrate_until_event t_0 e solver)
    as [[[event_time rows] solver']| |] eqn:Hrows; [simpl in Hrun|done..].
  pose proof Hrows as Hstack.
  apply integrate_until_event_inv in Hrows as (s1 & y1 & Hbefore & Hadv & ->).
  unfold integrate_until_event in Hstack. rewrite Hbefore in Hstack.
  simpl in Hstack. rewrite Hadv in Hstack. simpl in Hstack.
  destruct (bool_decide (shape y1 = shape (self_y0 solver'))) eqn:Hshape;
    [clear Hstack|done].
  apply bool_decide_eq_true in Hshape.
  exists cls, solver, t_0, s1, solver', event_time, y1.
  split_and!; [done..|].
  simpl. unfold to_like in Hrun.
  destruct (c_shapes c) as [shapes|]; simpl in Hrun.
  - destruct (_flat_to_shape _ _ shapes) as [parts| |];
      [simpl in Hrun|done..].
    injection Hrun as <-. by exists parts.
  - by injection Hrun as <-.
Qed.

End OdeintAdaptive.

(** ** odeint_dense: the loop and the archive, for any solver *)

Section DenseLoopFacts.
Context {Tensor : Type} `{TensorOps Tensor}.
Context {Func Tol Options EventFn : Type}.
Context `{!Misc (Tensor:=Tensor) (Func:=Func) (Tol:=Tol) (Options:=Options)
             (EventFn:=EventFn)}.
Context `{!InterpBasis (Tensor:=Tensor)}.
Context {Self : Type} `{!AdaptiveStepsizeODESolver (Tensor:=Tensor) Self}.
Context `{!RKAdaptiveStepsizeODESolver (Func:=Func) (Tol:=Tol)
             (Options:=Options) Self}.

(** Whenever the [while] loop of [odeint_dense] exits, it has run the loop
    body some number of rounds below the fuel, the right endpoint was below
    the requested time before each of them, and it has reached the
    requested time at the exit: the forward pass never evaluates the
    interpolant beyond the right endpoint of the current step. *)
Theorem dense_while_exit (next_t : Q) (fuel : nat) (st st' : dense_state) :
  dense_while fuel next_t st = Ok st' →
  ∃ n, (n < fuel)%nat ∧
       dense_steps n st = Ok st' ∧
       (next_t <= rk_t1 (self_rk_state (ds_solver st')))%Q ∧
       ∀ k stk, (k < n)%nat → dense_steps k st = Ok stk →
                (rk_t1 (self_rk_state (ds_solver stk)) < next_t)%Q.
Proof.
  revert st. induction fuel as [|fuel IH]; intros st Hrun; simpl in Hrun;
    [done|].
  destruct (Qlt_bool _ _) eqn:Hcond.
  - destruct (dense_step st) as [st1| |] eqn:Hstep; [simpl in Hrun|done..].
    destruct (IH st1 Hrun) as (n & Hn & Hsteps & Hreached & Hbefore).
    exists (S n). split; [lia|]. split; [by simpl; rewrite Hstep|].
    split; [done|]. intros k stk Hk Hstk. destruct k as [|k].
    + injection Hstk as <-. by apply Qlt_bool_true.
    + simpl in Hstk. rewrite Hstep in Hstk. apply (Hbefore k); [lia|done].
  - injection Hrun as <-. exists 0%nat. split; [lia|]. split; [done|].
    split; [by apply Qlt_bool_false|]. intros; lia.
Qed.

Lemma dense_step_shape (st st' : dense_state) :
  archive_shape st → dense_step st = Ok st' → archive_shape st'.
Proof.
  intros (Hlast & Hlen & Hdistinct) Hstep.
  apply dense_step_archive in Hstep as (rk & self' & _ & _ & _ & Hcases).
  unfold archive_shape. destruct (Qeq_bool (rk_t1 rk) (ds_t0 st)) eqn:Heq.
  - by destruct Hcases as (-> & -> & ->).
  - destruct Hcases as (-> & -> & ->). apply Qeq_bool_neq in Heq.
    split_and!.
    + by rewrite last_snoc.
    + rewrite !length_app. simpl. lia.
    + intros i x y Hx Hy.
      destruct (decide (S i < length (ds_times st))%nat) as [Hi|Hi].
      * rewrite lookup_app_l in Hx, Hy by lia. by eapply Hdistinct.
      * apply lookup_lt_Some in Hy as Hi'. rewrite length_app in Hi'.
        simpl in Hi'. assert (S i = length (ds_times st)) as Hi'' by lia.
        rewrite lookup_app_l in Hx by lia.
        rewrite Hi'', list_lookup_middle in Hy by done. injection Hy as <-.
        rewrite last_lookup in Hlast.
        replace (pred (length (ds_times st))) with i in Hlast by lia.
        rewrite Hx in Hlast. injection Hlast as ->.
        intros Hxy. apply Heq. by symmetry.
Qed.

Lemma dense_reach_shape (st0 st : dense_state) :
  archive_shape st0 → dense_reach st0 st → archive_shape st.
Proof.
  intros Hshape0. induction 1 as [|st st' _ IH Hstep|st solution _ IH];
    [done| |done].
  by eapply dense_step_shape.
Qed.

Lemma dense_reach_head (st0 st : dense_state) (x : Q) :
  head (ds_times st0) = Some x → dense_reach st0 st →
  head (ds_times st) = Some x.
Proof.
  intros Hhead. induction 1 as [|st st' _ IH Hstep|st solution _ IH];
    [done| |exact IH].
  apply dense_step_archive in Hstep as (rk & self' & _ & _ & _ & Hcases).
  destruct (Qeq_bool _ _); destruct Hcases as (_ & -> & _); [done|].
  by destruct (ds_times st).
Qed.

Lemma dense_init_shape (func : Func) (y0 : state_in Tensor) (t0 t1 : Q)
    (rtol atol : Tol) (method : option string) (options : option Options)
    (t : list Q) (st0 : dense_state) :
  odeint_dense_init func y0 t0 t1 rtol atol method options = Ok (t, st0) →
  archive_shape st0 ∧
  ds_times st0 = [rk_t0 (self_rk_state (ds_solver st0))].
Proof.
  unfold odeint_dense_init. intros Hinit.
  destruct (assert_ (is_tensor y0)); [simpl in Hinit|done..].
  destruct (_check_inputs _ _ _ _ _ _ _ _) as [c| |]; [simpl in Hinit|done..].
  destruct (assert_ _); [simpl in Hinit|done..].
  destruct (Dopri5Solver_init _ _ _ _ _) as [solver| |];
    [simpl in Hinit|done..].
  destruct (setitem _ _ _) as [solution| |]; [simpl in Hinit|done..].
  destruct (_before_integrate _ solver) as [solver'| |];
    [simpl in Hinit|done..].
  injection Hinit as <- <-. unfold archive_shape. simpl.
  split_and!; done.
Qed.

(** Whatever the solver does, an archive returned by [odeint_dense] starts
    at the left endpoint the solver state had on entry to the loop, holds at
    least one accepted step, has one breakpoint more than entries of
    coefficients, never repeats a breakpoint in two consecutive places, and
    its entries of coefficients all have the same number of rows. *)
Theorem odeint_dense_archive_shape (fuel : nat) (func : Func)
    (y0 : state_in Tensor) (t0 t1 : Q) (rtol atol : Tol)
    (method : option string) (options : option Options)
    (a : archive Tensor) :
  odeint_dense fuel func y0 t0 t1 rtol atol method options = Ok a →
  (∃ t st0,
     odeint_dense_init func y0 t0 t1 rtol atol method options = Ok (t, st0) ∧
     head (a_times a) = Some (rk_t0 (self_rk_state (ds_solver st0)))) ∧
  a_interp_coeffs a ≠ [] ∧
  length (a_times a) = S (length (a_interp_coeffs a)) ∧
  (∀ i x y, a_times a !! i = Some x → a_times a !! S i = Some y →
            ¬ (x == y)%Q) ∧
  ∃ rows, Forall (λ c, length c = rows) (a_interp_coeffs a).
Proof.
  intros Hrun.
  apply odeint_dense_inv in Hrun
    as (t & st0 & st & Hinit & Hreach & Htimes & Hcoeffs & Hstack).
  pose proof (dense_init_shape _ _ _ _ _ _ _ _ _ _ Hinit) as (Hshape0 & Hstart).
  pose proof (dense_reach_shape st0 st Hshape0 Hreach)
    as (Hlast & Hlen & Hdistinct).
  rewrite Htimes, Hcoeffs.
  apply stack_rows_length in Hstack as (c0 & rest & Hentries & Hrows).
  split_and!.
  - exists t, st0. split; [done|].
    apply (dense_reach_head st0 st); [by rewrite Hstart|done].
  - by rewrite Hentries.
  - done.
  - done.
  - by exists (length c0).
Qed.

End DenseLoopFacts.

(** ** The returned dense-output function below the first breakpoint *)

Section DenseWrapFacts.
Context {Tensor : Type} `{TensorOps Tensor} `{!InterpBasis (Tensor:=Tensor)}.

(** A query below the first breakpoint is not refused by the returned
    function itself: [searchsorted] yields 0, the index [idx - 1 = -1]
    selects the last breakpoint and the last entry of coefficients, and the
    evaluation routine is called on the coefficients of the last step with
    the last breakpoint as left and the first breakpoint as right
    endpoint. *)
Theorem dense_output_fn_wraps_before_first (a : archive Tensor)
    (tf tl t : Q) (cl : list Tensor) :
  archive_wf a →
  head (a_times a) = Some tf → last (a_times a) = Some tl →
  last (a_interp_coeffs a) = Some cl →
  (t < tf)%Q →
  dense_output_fn a t = _interp_evaluate cl tl tf t.
Proof.
  intros Hwf Hhead Hlast Hcl Hlt. pose proof Hwf as (Hsorted & _ & _).
  unfold dense_output_fn.
  rewrite (searchsorted_right_before _ _ tf) by done.
  change (Z.of_nat 0 - 1)%Z with (-1)%Z. change (Z.of_nat 0) with 0%Z.
  rewrite (getitem_minus_one _ _ Hlast), getitem_0_head, Hhead. simpl.
  by rewrite (archive_coef a (-1) cl Hwf (getitem_minus_one _ _ Hcl)).
Qed.

End DenseWrapFacts.

(** ** The further properties on concrete inputs *)

(** On [dy/dt = -y], [y0 = 1]: the run over the times [0, 1] extended by
    the time 2. *)
Lemma integrate_append_time_decay :
  integrate ([0; 1] ++ [2]) decay_solver
    = Ok ([[1]; [1625 # 4096]] ++ [[40625 # 262144]],
          decay_solver_at default_options rk_after_two).
Proof.
  refine (integrate_append_time (Tensor:=vec) [0; 1] 2 decay_solver
            (decay_solver_at default_options rk_after_one)
            (decay_solver_at default_options rk_after_two)
            [[1]; [1625 # 4096]] [40625 # 262144] _ _ _ _);
    vm_compute; reflexivity.
Defined.

(** An event solve on a tuple state returns a pair of the event time and
    the tuple [_flat_to_shape] made. *)
Lemma odeint_return_kind_decay_pair :
  ∃ c solution,
    _check_inputs decay (TupleIn [[1]; [2]]) [0; 1] (1 # 10) (1 # 10) None
      None (Some below_half) = Ok c ∧
    match c_event_fn c with
    | None =>
        EventSolution (6 # 8)
          (Shaped [[[1]; [125 # 256]]; [[2]; [125 # 128]]])
          = Solution solution
    | Some _ =>
        ∃ event_t,
          EventSolution (6 # 8)
            (Shaped [[[1]; [125 # 256]]; [[2]; [125 # 128]]])
            = EventSolution event_t solution
    end ∧
    match c_shapes c with
    | None => ∃ rows, solution = Flat rows
    | Some _ => ∃ parts, solution = Shaped parts
    end.
Proof.
  refine (odeint_return_kind (Tensor:=vec) decay (TupleIn [[1]; [2]]) [0; 1]
            (1 # 10) (1 # 10) None None (Some below_half) _ _).
  vm_compute. reflexivity.
Defined.

(** For a tensor state the times [0, 1, 2] and [0, 1] give the same event
    solve. *)
Lemma odeint_event_tensor_first_time_decay :
  odeint decay (TensorIn [1]) [0; 1; 2] (1 # 10) (1 # 10) None None
    (Some below_half)
  = odeint decay (TensorIn [1]) [0; 1] (1 # 10) (1 # 10) None None
      (Some below_half).
Proof.
  refine (odeint_event_tensor_uses_first_time_only (Tensor:=vec) decay
            (TensorIn [1]) [0; 1] [0; 1; 2] (1 # 10) (1 # 10) None None
            (Some below_half)
            (decay_checked None [1] [0; 1] (Some below_half)) below_half
            [0; 1; 2] _ _ _ _ _);
    vm_compute; reflexivity.
Defined.

(** The tuple state [(1, 2)] over the times [0, 1, 2]: three rows, cut
    into two components of three rows each. *)
Lemma odeint_fixed_grid_rows_decay_pair :
  ∃ cls solver rows,
    SOLVERS !! "dopri5" = Some cls ∧
    spec_init heun_euler decay [1; 2] (1 # 10) (1 # 10) default_options
      = Ok solver ∧
    length rows = 3%nat ∧
    Forall (λ r, shape r = shape (self_y0 solver)) rows ∧
    rows !! 0%nat = Some (self_y0 solver) ∧
    ∃ parts, _flat_to_shape rows [length rows] [[1%nat]; [1%nat]] = Ok parts ∧
             Solution
               (Shaped [[[1]; [1625 # 4096]; [40625 # 262144]];
                        [[2]; [1625 # 2048]; [40625 # 131072]]])
               = Solution (Shaped parts).
Proof.
  refine (odeint_fixed_grid_rows (Tensor:=vec)
            (λ _, spec_init heun_euler) decay (TupleIn [[1]; [2]])
            [0; 1; 2] (1 # 10) (1 # 10) None None None
            (decay_checked (Some [[1%nat]; [1%nat]]) [1; 2] [0; 1; 2] None)
            _ _ _ _);
    vm_compute; reflexivity.
Defined.

(** No requested time at all, without and with an event function. *)
Lemma odeint_empty_times_decay :
  odeint decay (TensorIn [1]) [] (1 # 10) (1 # 10) None None None
    = Raise IndexError ∧
  odeint decay (TensorIn [1]) [] (1 # 10) (1 # 10) None None
    (Some below_half) = Raise IndexError.
Proof.
  split.
  - refine (odeint_empty_times_index_error (Tensor:=vec)
              (λ _, spec_init heun_euler) decay (TensorIn [1]) []
              (1 # 10) (1 # 10) None None None
              (decay_checked None [1] [] None) Dopri5Solver decay_solver
              _ _ _ _);
      vm_compute; reflexivity.
  - refine (odeint_empty_times_index_error (Tensor:=vec)
              (λ _, spec_init heun_euler) decay (TensorIn [1]) []
              (1 # 10) (1 # 10) None None (Some below_half)
              (decay_checked None [1] [] (Some below_half)) Dopri5Solver
              decay_solver _ _ _ _);
      vm_compute; reflexivity.
Defined.

(** The [while] loop of the decay run with a first trial step of 2, for
    the requested time 1. *)
Lemma dense_while_exit_decay :
  ∃ n, (n < 8)%nat ∧
       dense_steps n dense_start = Ok dense_after_four ∧
       1 <= rk_t1 (self_rk_state (ds_solver dense_after_four)) ∧
       ∀ k stk, (k < n)%nat → dense_steps k dense_start = Ok stk →
                rk_t1 (self_rk_state (ds_solver stk)) < 1.
Proof.
  refine (dense_while_exit (Tensor:=vec) (Self:=spec_solver vec) 1 8
            dense_start dense_after_four _).
  vm_compute. reflexivity.
Defined.

(** The archive of the decay run. *)
Lemma odeint_dense_archive_shape_decay :
  (∃ t st0,
     odeint_dense_init decay (TensorIn [1]) 0 1 (1 # 10) (1 # 10) None
       (Some big_first_step) = Ok (t, st0) ∧
     head (a_times decay_archive)
       = Some (rk_t0 (self_rk_state (ds_solver st0)))) ∧
  a_interp_coeffs decay_archive ≠ [] ∧
  length (a_times decay_archive)
    = S (length (a_interp_coeffs decay_archive)) ∧
  (∀ i x y, a_times decay_archive !! i = Some x →
            a_times decay_archive !! S i = Some y → ¬ x == y) ∧
  ∃ rows, Forall (λ c, length c = rows) (a_interp_coeffs decay_archive).
Proof.
  refine (odeint_dense_archive_shape (Tensor:=vec) (Self:=spec_solver vec)
            8 decay (TensorIn [1]) 0 1 (1 # 10) (1 # 10) None
            (Some big_first_step) decay_archive _).
  vm_compute. reflexivity.
Defined.

(** On the archive of the decay run the query [-1] is handed to the
    evaluation routine with the coefficients of the last step and the
    endpoints [1] and [0]. *)
Lemma dense_output_fn_wraps_decay :
  dense_output_fn decay_archive (-1)
    = _interp_evaluate [[5 # 8]; [25 # 64]] (4 # 4) 0 (-1).
Proof.
  refine (dense_output_fn_wraps_before_first decay_archive 0 (4 # 4) (-1)
            [[5 # 8]; [25 # 64]] decay_archive_wf _ _ _ _);
    reflexivity || done.
Defined.

(** The event [y = 1/2] on the tuple state [(1, 2)] and the times
    [0, 1]: the hook locates the event at [3/4] in the state
    [(125/256, 125/128)], and the two rows are cut into two components. *)
Lemma odeint_event_two_rows_decay_pair :
  ∃ cls solver t_0 s1 solver' event_time y1,
    SOLVERS !! "dopri5" = Some cls ∧
    spec_init heun_euler decay [1; 2] (1 # 10) (1 # 10) default_options
      = Ok solver ∧
    head [0; 1] = Some t_0 ∧
    _before_integrate [to_dtype (self_dtype solver) t_0] solver = Ok s1 ∧
    _advance_until_event below_half s1 = Ok ((event_time, y1), solver') ∧
    shape y1 = shape (self_y0 solver') ∧
    ∃ parts,
      _flat_to_shape [self_y0 solver'; y1] [2%nat] [[1%nat]; [1%nat]]
        = Ok parts ∧
      EventSolution (6 # 8)
        (Shaped [[[1]; [125 # 256]]; [[2]; [125 # 128]]])
        = EventSolution event_time (Shaped parts).
Proof.
  refine (odeint_event_two_rows_any_length (Tensor:=vec)
            (λ _, spec_init heun_euler) decay (TupleIn [[1]; [2]])
            [0; 1] (1 # 10) (1 # 10) None None (Some below_half)
            (decay_checked (Some [[1%nat]; [1%nat]]) [1; 2] [0; 1]
               (Some below_half))
            below_half _ _ _ _);
    vm_compute; reflexivity.
Defined.

